(** * smart_secretary.py: cooldown log, reachability cache, decision engine

    A shallow embedding of [src/smart_secretary.py] and the proofs of the
    properties its specification states about it.

    Conventions of the embedding.
    - A Python [float] holding a number of seconds (the result of
      [time.time()], of [timedelta.total_seconds()], of
      [datetime.timestamp()]) is the integer count of microseconds, the
      resolution of [datetime]; [seconds n] turns a whole number of seconds
      (a configuration value, [FloodWaitError.seconds]) into that unit and
      [int_of_float] is Python's [int(...)] on such a value.
    - Code with effects lives in the monad [M]: a function of the [world]
      (clock, the cache object, the files, the logger's records, the calls
      made to the transport) that returns a value or raises.
    - What the outside decides (the answer of the transport to each request,
      whether a file operation fails) is data: fields of the event and
      client, and the fault schedules of the world. *)

From Stdlib Require Import ZArith String Ascii List Lia DecimalString.
From stdpp Require Import base option gmap strings list.

Open Scope Z_scope.

(** ** Numbers and text of the Python runtime *)

Definition seconds (n : Z) : Z := n * 1000000.

(** [int(x)] for a float [x] of seconds: truncation towards zero. *)
Definition int_of_float (x : Z) : Z := Z.quot x 1000000.

(** [str(n)] and the [{n}] of an f-string, for an integer. *)
Definition str (n : Z) : string := NilZero.string_of_int (Z.to_int n).

(** ** Exceptions *)

Inductive exn : Type :=
| OSError (msg : string)            (* IOError is the same class *)
| JSONDecodeError (msg : string)    (* a ValueError *)
| UnicodeDecodeError (msg : string) (* a ValueError *)
| ValueError (msg : string)
| IndexError (msg : string)
| RuntimeError (msg : string)
| FloodWaitError (secs : Z)         (* telethon.errors.FloodWaitError *)
| RPCError (msg : string)           (* every other error of the transport *)
| OverflowError (msg : string).     (* an ArithmeticError *)

(** [str(e)], as interpolated in the log messages. *)
Definition exn_str (e : exn) : string :=
  match e with
  | OSError m | JSONDecodeError m | UnicodeDecodeError m | ValueError m
  | IndexError m | RuntimeError m | RPCError m | OverflowError m => m
  | FloodWaitError s =>
      "A wait of " +:+ str s +:+ " seconds is required"
  end.

Inductive result (A : Type) : Type :=
| Return (a : A)
| Raise (e : exn).
Arguments Return {A} a.
Arguments Raise {A} e.

(** The first integer that [float(n)] cannot convert: halfway between the
    largest double and [2 ^ 1024]. *)
Definition float_overflow_at : Z := 2 ^ 1024 - 2 ^ 970.

(** [float(value)] for a number of seconds: a float is returned as it is;
    a value beyond the range of the doubles can only be an integer, and
    converting it raises. *)
Definition float (x : Z) : result Z :=
  if seconds float_overflow_at <=? Z.abs x
  then Raise (OverflowError "int too large to convert to float")
  else Return x.

(** ** datetime *)

(** A [datetime] object: its calendar and clock fields, counted as the
    microseconds they are after 1970-01-01T00:00:00 (whatever the zone), and
    its [tzinfo]: [None] for a naive object, else the UTC offset. *)
Record datetime : Type := Datetime {
  wall : Z;
  tzinfo : option Z
}.

(** ** Values of the cooldown log: [Dict[str, Union[float, str]]] *)

Inductive value : Type :=
| VNum (x : Z)        (* epoch seconds, a finite int or float *)
| VStr (s : string).

(** What a file holds, as far as [json.load] can tell. A file of JSON that
    is not of the type [load_log] declares (an array, an entry that is a
    list or [null]) has no constructor here: the development is about logs
    of that type, which are the ones [save_log] writes. *)
Inductive content : Type :=
| Json (log : gmap string value)  (* a JSON object of the log's type *)
| Garbled (raw : string)          (* text that is not JSON *)
| Undecodable.                    (* bytes that are not UTF-8 *)

(** ** The reachability cache object *)

(** [self.ttl] and [self.cache = {'is_online': .., 'timestamp': ..}]. *)
Record StatusCache : Type := MkStatusCache {
  ttl : Z;
  cache_is_online : bool;
  cache_timestamp : Z
}.

(** ** The world *)

Inductive level : Type := DEBUG | INFO | WARNING | ERROR | CRITICAL.

(** What the process did to the transport and the event loop, in order. *)
Inductive action : Type :=
| GetUsersRequest (ids : list Z)
| SetTypingRequest (peer : Z)
| Reply (text : string)
| Sleep (duration : Z).

(** How an operation that writes a file can fail: refused before anything
    was written (the file cannot be opened: permissions, read-only
    directory), or broken off after the destination was created or
    truncated, which then holds what [remains] of the operation (a part of
    the data when the disk is full, all of it when only the last step
    failed). Where a fault is expected, [true] stands for [Refused] and
    [false] for [NoFault]. *)
Inductive fault : Type :=
| NoFault
| Refused
| Broken (remains : content).

Definition fault_of_bool (b : bool) : fault :=
  if b then Refused else NoFault.
Coercion fault_of_bool : bool >-> fault.

Record world : Type := World {
  clock : Z;                          (* what [time.time()] reads *)
  status_cache : StatusCache;         (* the one cache object of [main] *)
  disk : gmap string content;         (* path to file *)
  read_faults : list bool;            (* next [open(.., 'r')] fails? *)
  copy_faults : list fault;           (* how the next [shutil.copy] goes *)
  write_faults : list fault;          (* how the next write of a file goes *)
  journal : list (level * string);    (* calls to the logger *)
  wire : list action
}.

(** What a schedule says once it is exhausted: no fault. *)
Class Quiet (A : Type) : Type := quiet : A.
#[global] Instance quiet_bool : Quiet bool := false.
#[global] Instance quiet_fault : Quiet fault := NoFault.

(** The head of a fault schedule; an exhausted schedule has no fault. *)
Definition next_fault {A : Type} `{Quiet A} (l : list A) : A * list A :=
  match l with
  | [] => (quiet, [])
  | b :: l' => (b, l')
  end.

Definition set_clock (t : Z) (w : world) : world :=
  World t (status_cache w) (disk w) (read_faults w) (copy_faults w)
        (write_faults w) (journal w) (wire w).
Definition set_status_cache (c : StatusCache) (w : world) : world :=
  World (clock w) c (disk w) (read_faults w) (copy_faults w)
        (write_faults w) (journal w) (wire w).
Definition set_disk (d : gmap string content) (w : world) : world :=
  World (clock w) (status_cache w) d (read_faults w) (copy_faults w)
        (write_faults w) (journal w) (wire w).
Definition set_read_faults (l : list bool) (w : world) : world :=
  World (clock w) (status_cache w) (disk w) l (copy_faults w)
        (write_faults w) (journal w) (wire w).
Definition set_copy_faults (l : list fault) (w : world) : world :=
  World (clock w) (status_cache w) (disk w) (read_faults w) l
        (write_faults w) (journal w) (wire w).
Definition set_write_faults (l : list fault) (w : world) : world :=
  World (clock w) (status_cache w) (disk w) (read_faults w) (copy_faults w)
        l (journal w) (wire w).
Definition set_journal (j : list (level * string)) (w : world) : world :=
  World (clock w) (status_cache w) (disk w) (read_faults w) (copy_faults w)
        (write_faults w) j (wire w).
Definition set_wire (a : list action) (w : world) : world :=
  World (clock w) (status_cache w) (disk w) (read_faults w) (copy_faults w)
        (write_faults w) (journal w) a.

(** ** The monad of effects and exceptions *)

Definition M (A : Type) : Type := world -> result A * world.

Definition ret {A} (a : A) : M A := fun w => (Return a, w).

Definition raise {A} (e : exn) : M A := fun w => (Raise e, w).

Definition bind {A B} (m : M A) (k : A -> M B) : M B :=
  fun w =>
    match m w with
    | (Return a, w') => k a w'
    | (Raise e, w') => (Raise e, w')
    end.

(** [try: body / except ...: handler]; a handler that does not match an
    exception raises it again. *)
Definition try_except {A} (body : M A) (handler : exn -> M A) : M A :=
  fun w =>
    match body w with
    | (Return a, w') => (Return a, w')
    | (Raise e, w') => handler e w'
    end.

(** [await] of an answer the outside already decided. *)
Definition lift {A} (r : result A) : M A := fun w => (r, w).

Declare Scope py_scope.
Delimit Scope py_scope with py.
Notation "x <- m ;; k" := (bind m (fun x => k))
  (at level 100, m at next level, right associativity) : py_scope.
Notation "m ;;; k" := (bind m (fun _ => k))
  (at level 100, right associativity) : py_scope.
Open Scope py_scope.

(** ** Library calls *)

Module time.
Definition time : M Z := fun w => (Return (clock w), w).
End time.

Module logger.
Definition log (l : level) (msg : string) : M unit :=
  fun w => (Return tt, set_journal (journal w ++ [(l, msg)]) w).
Definition debug := log DEBUG.
Definition info := log INFO.
Definition warning := log WARNING.
Definition error := log ERROR.
Definition critical := log CRITICAL.
End logger.

Module asyncio.
(** [await asyncio.sleep(d)], [d] in whole seconds. *)
Definition sleep (d : Z) : M unit :=
  fun w => (Return tt,
            set_wire (wire w ++ [Sleep d]) (set_clock (clock w + seconds d) w)).
End asyncio.

Module os_path.
Definition exists_ (path : string) : M bool :=
  fun w => (Return (bool_decide (is_Some (disk w !! path))), w).
End os_path.

(** [with open(path, 'r', encoding='utf-8') as f: return json.load(f)] *)
Definition open_json_load (path : string) : M (gmap string value) :=
  fun w =>
    let '(fault, rest) := next_fault (read_faults w) in
    let w' := set_read_faults rest w in
    if fault then (Raise (OSError "Permission denied"), w')
    else match disk w !! path with
         | None => (Raise (OSError "No such file or directory"), w')
         | Some (Json log) => (Return log, w')
         | Some (Garbled _) => (Raise (JSONDecodeError "Expecting value"), w')
         | Some Undecodable =>
             (Raise (UnicodeDecodeError "invalid start byte"), w')
         end.

(** [with open(path, 'w', encoding='utf-8') as f: json.dump(log, f, ..)]:
    [open] can refuse, leaving the file alone; once it has truncated the
    file, a failure of [json.dump] or of the closing flush leaves what was
    written so far. *)
Definition open_json_dump (path : string) (log : gmap string value) : M unit :=
  fun w =>
    let '(fault, rest) := next_fault (write_faults w) in
    let w' := set_write_faults rest w in
    match fault with
    | Refused => (Raise (OSError "Permission denied"), w')
    | Broken remains =>
        (Raise (OSError "No space left on device"),
         set_disk (<[path := remains]> (disk w)) w')
    | NoFault => (Return tt, set_disk (<[path := Json log]> (disk w)) w')
    end.

Module shutil.
(** [shutil.copy(src, dst)] is [copyfile] then [copymode]: it can be
    refused before [dst] exists, or fail once [dst] was written, in part or
    in full. *)
Definition copy (src dst : string) : M unit :=
  fun w =>
    let '(fault, rest) := next_fault (copy_faults w) in
    let w' := set_copy_faults rest w in
    match fault with
    | Refused => (Raise (OSError "Permission denied"), w')
    | Broken remains =>
        (Raise (OSError "No space left on device"),
         set_disk (<[dst := remains]> (disk w)) w')
    | NoFault =>
        match disk w !! src with
        | None => (Raise (OSError "No such file or directory"), w')
        | Some c => (Return tt, set_disk (<[dst := c]> (disk w)) w')
        end
    end.
End shutil.

Module timezone.
Definition utc : Z := 0.
End timezone.

Module datetime.
(** [datetime.now(tz)] *)
Definition now (tz : Z) : M datetime :=
  fun w => (Return (Datetime (clock w + tz) (Some tz)), w).
(** [d.replace(tzinfo=tz)]: the fields stay, the zone is set. *)
Definition replace_tzinfo (d : datetime) (tz : Z) : datetime :=
  Datetime (wall d) (Some tz).
(** [datetime.min] and [datetime.max]: 0001-01-01T00:00:00 and
    9999-12-31T23:59:59.999999. *)
Definition min : Z := seconds (-62135596800).
Definition max : Z := seconds 253402300800 - 1.
Definition in_range (t : Z) : bool := (min <=? t) && (t <=? max).
(** [d.astimezone(tz)] and [d.timestamp()]; a naive [d] stands for local
    time in Python, the program calls neither on one. Conversion to the
    zone [d] is in is a no-op; otherwise [d] is first taken to UTC, and that
    subtraction raises when it leaves the range of [datetime]. *)
Definition utcoffset (d : datetime) : Z := default 0 (tzinfo d).
Definition astimezone (d : datetime) (tz : Z) : result datetime :=
  if utcoffset d =? tz then Return (Datetime (wall d) (Some tz))
  else if in_range (wall d - utcoffset d)
          && in_range (wall d - utcoffset d + tz)
       then Return (Datetime (wall d - utcoffset d + tz) (Some tz))
       else Raise (OverflowError "date value out of range").
Definition timestamp (d : datetime) : Z := wall d - utcoffset d.
(** [(a - b).total_seconds()] of two aware objects. *)
Definition sub_total_seconds (a b : datetime) : Z := timestamp a - timestamp b.
End datetime.

(** ** class AdminStatusCache *)

Module AdminStatusCache.

Definition __init__ (ttl : Z) : StatusCache := MkStatusCache ttl false 0.

Definition get : M (option bool) :=
  now <- time.time ;;
  self <- (fun w => (Return (status_cache w), w)) ;;
  if now - cache_timestamp self <? seconds (ttl self) then
    logger.debug "Admin status: using cache." ;;;
    ret (Some (cache_is_online self))
  else
    logger.debug "Admin status cache expired. Performing live check." ;;;
    ret None.

Definition set (is_online : bool) : M unit :=
  (fun w => let self := status_cache w in
            (Return tt,
             set_status_cache
               (MkStatusCache (ttl self) is_online (cache_timestamp self)) w)) ;;;
  now <- time.time ;;
  (fun w => let self := status_cache w in
            (Return tt,
             set_status_cache
               (MkStatusCache (ttl self) (cache_is_online self) now) w)).

End AdminStatusCache.

(** ** Configuration: the constants read from [config.json] at start-up *)

Class Config : Type := {
  CONVERSATION_THRESHOLD_SEC : Z;
  TYPING_DELAY_SEC : Z;
  RESPONSES_FILE : string;
  ADMIN_ID_TO_CHECK : Z;
  ONLINE_THRESHOLD_SEC : Z;
  HEADER_FORMATTED : string;
  ACTION_TEXT_BASE : string;
  RESPONSE_ONLINE_DYNAMIC : string;
  RESPONSE_OFFLINE_DYNAMIC : string
}.

Definition STATUS_CACHE_TTL_SEC : Z := 30.

(** [datetime.isoformat] and [datetime.fromisoformat] of the standard
    library; [None] is the [ValueError] of a string that does not parse. *)
Class IsoFormat : Type := {
  isoformat : datetime -> string;
  fromisoformat : string -> option datetime
}.

(** ** class ResponseManager *)

Module ResponseManager.
Section Methods.
Context `{Config} `{IsoFormat}.

Definition _convert_to_timestamp (value : value) : M Z :=
  match value with
  | VNum x => lift (float x)
  | VStr s =>
      try_except
        (dt <- match fromisoformat s with
               | Some d => ret d
               | None => raise (ValueError ("Invalid isoformat string: " +:+ s))
               end ;;
         let dt := match tzinfo dt with
                   | None => datetime.replace_tzinfo dt timezone.utc
                   | Some _ => dt
                   end in
         dt <- lift (datetime.astimezone dt timezone.utc) ;;
         ret (datetime.timestamp dt))
        (fun e =>
           match e with
           | ValueError _ | JSONDecodeError _ | UnicodeDecodeError _ =>
               logger.error
                 ("Failed to parse time string: " +:+ s +:+ ". Assuming 0.") ;;;
               ret 0
           | _ => raise e
           end)
  end.

Definition sync_load : M (gmap string value) :=
  present <- os_path.exists_ RESPONSES_FILE ;;
  if present : bool then
    try_except
      (open_json_load RESPONSES_FILE)
      (fun e =>
         match e with
         | JSONDecodeError _ =>
             now <- time.time ;;
             let timestamp := int_of_float now in
             let backup_name :=
               RESPONSES_FILE +:+ ".corrupted_" +:+ str timestamp +:+ ".bak" in
             try_except
               (shutil.copy RESPONSES_FILE backup_name ;;;
                logger.critical
                  ("⚠️ Log file '" +:+ RESPONSES_FILE
                     +:+ "' is corrupted (invalid JSON).") ;;;
                logger.critical ("💾 BACKUP CREATED: " +:+ backup_name) ;;;
                logger.warning
                  "Starting with a fresh log to keep the bot running.")
               (fun backup_error =>
                  logger.error
                    ("Failed to create backup of corrupted log: "
                       +:+ exn_str backup_error)) ;;;
             ret ∅
         | OSError _ =>
             logger.critical
               ("❌ FATAL I/O ERROR reading log file '" +:+ RESPONSES_FILE
                  +:+ "': " +:+ exn_str e) ;;;
             raise (RuntimeError
                      "Cannot safely proceed without log file access.")
         | _ => raise e
         end)
  else ret ∅.

Definition load_log : M (gmap string value) := sync_load.

Definition save_log (user_id : string) : M unit :=
  log <- load_log ;;
  now <- datetime.now timezone.utc ;;
  let now_iso := isoformat now in
  let log := <[user_id := VStr now_iso]> log in
  let sync_save :=
    try_except
      (open_json_dump RESPONSES_FILE log)
      (fun e =>
         match e with
         | OSError _ =>
             logger.error ("Failed to save log file: " +:+ exn_str e)
         | _ => raise e
         end) in
  sync_save.

Definition should_reply (user_id : string) : M bool :=
  log <- load_log ;;
  let last_response_value := log !! user_id in
  match last_response_value with
  | None => ret true
  | Some v =>
      last_response_timestamp <- _convert_to_timestamp v ;;
      now <- time.time ;;
      ret (now - last_response_timestamp >=? seconds CONVERSATION_THRESHOLD_SEC)
  end.

End Methods.
End ResponseManager.

(** ** The transport: what Telethon hands to the program *)

Inductive UserStatus : Type :=
| UserStatusOnline
| UserStatusRecently
| UserStatusOffline (was_online : option datetime)
| UserStatusOther (type_name : string). (* UserStatusEmpty, LastWeek, None.. *)

Record User : Type := MkUser {
  bot : bool;
  status : UserStatus
}.

(** The classes of [event.get_chat()]. *)
Inductive Chat : Type :=
| IsUser (u : User)
| IsChat
| IsChannel.

(** The answers of the client to the requests of one event, and the time the
    presence request takes. *)
Record Client : Type := MkClient {
  answer_GetUsersRequest : result (list User);
  latency_GetUsersRequest : Z;
  answer_SetTypingRequest : result unit
}.

Record Event : Type := MkEvent {
  out : bool;
  get_chat : result Chat;
  sender_id : Z;
  client : Client;
  get_input_chat : result Z;
  answer_reply : result unit
}.

(** [await client(request)]: the request goes out, the answer comes back. *)
Definition call {A} (request : action) (latency : Z) (answer : result A) : M A :=
  fun w => (answer,
            set_wire (wire w ++ [request]) (set_clock (clock w + latency) w)).

Section Engine.
Context `{Config} `{IsoFormat}.

(** The branches of [check_admin_online_status] on the status received. *)
Definition classify (status : UserStatus) : M bool :=
  match status with
  | UserStatusOnline | UserStatusRecently =>
      logger.info "Admin status: Online/Recently (Live Check)." ;;;
      ret true
  | UserStatusOffline was_online =>
      match was_online with
      | Some was_online =>
          let was_online_utc :=
            datetime.replace_tzinfo was_online timezone.utc in
          now_utc <- datetime.now timezone.utc ;;
          let last_seen_delta :=
            datetime.sub_total_seconds now_utc was_online_utc in
          if last_seen_delta <=? seconds ONLINE_THRESHOLD_SEC then
            logger.info
              ("Admin status: Offline, seen "
                 +:+ str (int_of_float last_seen_delta)
                 +:+ "s ago (within limit). (Live Check)") ;;;
            ret true
          else
            logger.info
              ("Admin status: Offline, seen "
                 +:+ str (int_of_float last_seen_delta)
                 +:+ "s ago (over limit). (Live Check)") ;;;
            ret false
      | None =>
          logger.info
            "Admin status: Offline, last seen timestamp missing. (Live Check)" ;;;
          ret false
      end
  | UserStatusOther type_name =>
      logger.info
        ("Admin status: Unknown/Other (" +:+ type_name
           +:+ "). Assuming offline. (Live Check)") ;;;
      ret false
  end.

Definition check_admin_online_status (client : Client) : M bool :=
  cached_status <- AdminStatusCache.get ;;
  match cached_status with
  | Some cached_status => ret cached_status
  | None =>
      is_online <-
        try_except
          (user_list <- call (GetUsersRequest [ADMIN_ID_TO_CHECK])
                             (latency_GetUsersRequest client)
                             (answer_GetUsersRequest client) ;;
           admin_user <- match user_list with
                         | u :: _ => ret u
                         | [] => raise (IndexError "list index out of range")
                         end ;;
           let status := status admin_user in
           classify status)
          (fun e =>
             logger.error
               ("Error checking admin status: " +:+ exn_str e
                  +:+ ". Falling back to default/cached status (False).") ;;;
             ret false) ;;
      AdminStatusCache.set is_online ;;;
      ret is_online
  end.

(** The [try] block of [process_message]. *)
Definition process_message_body (event : Event) (sender_id : string) : M unit :=
  let client := client event in
  chat_input <- lift (get_input_chat event) ;;
  is_admin_online <- check_admin_online_status client ;;
  dynamic_message_part <-
    (if is_admin_online : bool then
       logger.info "-> Статус: ОНЛАЙН." ;;;
       ret RESPONSE_ONLINE_DYNAMIC
     else
       logger.info "-> Статус: ОФФЛАЙН." ;;;
       ret RESPONSE_OFFLINE_DYNAMIC) ;;
  let final_response_text :=
    HEADER_FORMATTED +:+ dynamic_message_part +:+ ACTION_TEXT_BASE in
  call (SetTypingRequest chat_input) 0 (answer_SetTypingRequest client) ;;;
  asyncio.sleep TYPING_DELAY_SEC ;;;
  call (Reply final_response_text) 0 (answer_reply event) ;;;
  ResponseManager.save_log sender_id ;;;
  logger.info ("✅ [ОТВЕТ] Клиенту " +:+ sender_id +:+ " отправлен.").

(** The [except] clauses of [process_message]. *)
Definition process_message_except (e : exn) : M unit :=
  match e with
  | FloodWaitError secs =>
      logger.warning
        ("⚠️ FloodWait: " +:+ str secs +:+ " сек. Ожидание...") ;;;
      asyncio.sleep secs
  | _ =>
      logger.error ("❌ Ошибка при обработке сообщения: " +:+ exn_str e)
  end.

Definition process_message (event : Event) : M unit :=
  if out event then ret tt
  else
    chat <- lift (get_chat event) ;;
    if match chat with
       | IsUser u => bot u
       | _ => true
       end
    then ret tt
    else
      let sender_id := str (sender_id event) in
      should <- ResponseManager.should_reply sender_id ;;
      if negb should then ret tt
      else
        logger.info
          ("📨 Входящее/Редактирование от " +:+ sender_id
             +:+ ". Обработка...") ;;;
        try_except
          (process_message_body event sender_id)
          process_message_except.

End Engine.

(** ** What the properties speak about *)

(** The cooldown log as persisted: the entries of the log file, none when
    the file is missing or does not parse. *)
Definition persisted_log `{Config} (w : world) : gmap string value :=
  match disk w !! RESPONSES_FILE with
  | Some (Json log) => log
  | _ => ∅
  end.

(** The name [sync_load] gives to the copy of a corrupt log. *)
Definition backup_name `{Config} (w : world) : string :=
  RESPONSES_FILE +:+ ".corrupted_" +:+ str (int_of_float (clock w)) +:+ ".bak".

(** [datetime.now(timezone.utc)] at instant [t]. *)
Definition utc_datetime (t : Z) : datetime := Datetime t (Some timezone.utc).

(** The instant a stored value stands for in [_convert_to_timestamp]. *)
Definition stored_instant `{IsoFormat} (v : value) : Z :=
  match v with
  | VNum x => x
  | VStr s =>
      match fromisoformat s with
      | Some (Datetime t None) => t
      | Some (Datetime t (Some offset)) => t - offset
      | None => 0
      end
  end.

(** The stored values [_convert_to_timestamp] can convert: a number within
    the range of the doubles, any string without a zone or that does not
    parse, and a string with a zone whose instant in UTC is within the range
    of [datetime]. On the others it raises [OverflowError]. *)
Definition convertible `{IsoFormat} (v : value) : Prop :=
  match v with
  | VNum x => Z.abs x < seconds float_overflow_at
  | VStr s =>
      match fromisoformat s with
      | Some (Datetime t (Some offset)) =>
          offset = 0 \/ (datetime.min <= t - offset <= datetime.max)
      | _ => True
      end
  end.

(** What [_convert_to_timestamp] returns or raises on a stored value. *)
Definition conversion `{IsoFormat} (v : value) : result Z :=
  match v with
  | VNum x => float x
  | VStr s =>
      match fromisoformat s with
      | None => Return 0
      | Some (Datetime t None) => Return t
      | Some (Datetime t (Some offset)) =>
          if (offset =? 0) || datetime.in_range (t - offset)
          then Return (t - offset)
          else Raise (OverflowError "date value out of range")
      end
  end.

(** The reply of the engine when the owner is not reachable. *)
Definition offline_response `{Config} : string :=
  HEADER_FORMATTED +:+ RESPONSE_OFFLINE_DYNAMIC +:+ ACTION_TEXT_BASE.

(** The cache holds no fresh entry at the clock of [w]. *)
Definition cache_miss (w : world) : Prop :=
  clock w - cache_timestamp (status_cache w) >= seconds (ttl (status_cache w)).

(** A program [m] leaves the component [f] of the world as it was. *)
Definition keeps {A B : Type} (f : world -> B) (m : M A) : Prop :=
  forall w, f (m w).2 = f w.

(** A program [m] that raises has left the component [f] as it was. *)
Definition keeps_on_raise {A B : Type} (f : world -> B) (m : M A) : Prop :=
  forall w e w', m w = (Raise e, w') -> f w' = f w.

(** ** An instance of the standard library's ISO 8601 format

    [isoformat] writes [YYYY-MM-DDTHH:MM:SS[.ffffff][+HH:MM[:SS[.ffffff]]]];
    [fromisoformat] reads the strings [isoformat] writes, with any
    separator, with the time cut after hours or minutes, and with three
    digits of fraction. The calendar is the proleptic Gregorian one. *)

Module Iso8601.

Definition usec_per_day : Z := 86400000000.

Definition days_from_civil (y m d : Z) : Z :=
  let y := if m <=? 2 then y - 1 else y in
  let era := y / 400 in
  let yoe := y - era * 400 in
  let mp := (m + 9) mod 12 in
  let doy := (153 * mp + 2) / 5 + d - 1 in
  let doe := yoe * 365 + yoe / 4 - yoe / 100 + doy in
  era * 146097 + doe - 719468.

Definition civil_from_days (z : Z) : Z * Z * Z :=
  let z := z + 719468 in
  let era := z / 146097 in
  let doe := z - era * 146097 in
  let yoe := (doe - doe / 1460 + doe / 36524 - doe / 146096) / 365 in
  let doy := doe - (365 * yoe + yoe / 4 - yoe / 100) in
  let mp := (5 * doy + 2) / 153 in
  let d := doy - (153 * mp + 2) / 5 + 1 in
  let m := if mp <? 10 then mp + 3 else mp - 9 in
  (if m <=? 2 then yoe + era * 400 + 1 else yoe + era * 400, m, d).

Definition is_leap (y : Z) : bool :=
  (y mod 4 =? 0) && (negb (y mod 100 =? 0) || (y mod 400 =? 0)).

Definition days_in_month (y m : Z) : Z :=
  if m =? 2 then (if is_leap y then 29 else 28)
  else if (m =? 4) || (m =? 6) || (m =? 9) || (m =? 11) then 30
  else 31.

(** The last [k] decimal digits of [n]. *)
Fixpoint pad (k : nat) (n : Z) : string :=
  match k with
  | O => ""
  | S k' =>
      pad k' (n / 10)
        +:+ String (ascii_of_nat (48 + Z.to_nat (n mod 10))) ""
  end.

(** [HH:MM:SS[.ffffff]] of a count of microseconds below one day. *)
Definition format_clock (us : Z) (always_seconds : bool) : string :=
  let frac := us mod 1000000 in
  let s := us / 1000000 in
  pad 2 (s / 3600) +:+ ":" +:+ pad 2 (s / 60 mod 60)
    +:+ (if always_seconds || negb (s mod 60 =? 0) || negb (frac =? 0)
         then ":" +:+ pad 2 (s mod 60) else "")
    +:+ (if frac =? 0 then "" else "." +:+ pad 6 frac).

Definition format (d : datetime) : string :=
  let '(y, m, dd) := civil_from_days (wall d / usec_per_day) in
  pad 4 y +:+ "-" +:+ pad 2 m +:+ "-" +:+ pad 2 dd +:+ "T"
    +:+ format_clock (wall d mod usec_per_day) true
    +:+ match tzinfo d with
        | None => ""
        | Some offset =>
            (if offset <? 0 then "-" else "+")
              +:+ format_clock (Z.abs offset) false
        end.

Definition digit (c : ascii) : option Z :=
  let n := Z.of_nat (nat_of_ascii c) in
  if (48 <=? n) && (n <=? 57) then Some (n - 48) else None.

(** Exactly [k] digits at the head of [s]: their value and the rest. *)
Fixpoint digits (k : nat) (acc : Z) (s : string) : option (Z * string) :=
  match k, s with
  | O, _ => Some (acc, s)
  | S k', String c s' => d ← digit c; digits k' (10 * acc + d) s'
  | S _, EmptyString => None
  end.

Definition expect (c : ascii) (s : string) : option string :=
  match s with
  | String c' s' => if Ascii.eqb c c' then Some s' else None
  | EmptyString => None
  end.

Definition parse_date (s : string) : option (Z * string) :=
  '(y, s) ← digits 4 0 s;
  s ← expect "-" s;
  '(m, s) ← digits 2 0 s;
  s ← expect "-" s;
  '(d, s) ← digits 2 0 s;
  if (1 <=? y) && (1 <=? m) && (m <=? 12) && (1 <=? d)
     && (d <=? days_in_month y m)
  then Some (days_from_civil y m d * usec_per_day, s)
  else None.

Definition parse_fraction (s : string) : option (Z * string) :=
  match expect "." s with
  | None => Some (0, s)
  | Some s' =>
      match digits 6 0 s' with
      | Some r => Some r
      | None => '(ms, s') ← digits 3 0 s'; Some (ms * 1000, s')
      end
  end.

(** [HH[:MM[:SS[.fff[fff]]]]]: microseconds and the rest. *)
Definition parse_clock (s : string) : option (Z * string) :=
  '(h, s) ← digits 2 0 s;
  '(m, s) ← match expect ":" s with
            | None => Some (0, s)
            | Some s' => digits 2 0 s'
            end;
  '(sec, s) ← match expect ":" s with
              | None => Some (0, s)
              | Some s' => digits 2 0 s'
              end;
  '(frac, s) ← parse_fraction s;
  if (h <? 24) && (m <? 60) && (sec <? 60)
  then Some (((h * 60 + m) * 60 + sec) * 1000000 + frac, s)
  else None.

Definition parse_offset (s : string) : option (option Z) :=
  match s with
  | EmptyString => Some None
  | String c s' =>
      sign ← (if Ascii.eqb c "+" then Some 1
              else if Ascii.eqb c "-" then Some (-1) else None);
      '(offset, rest) ← parse_clock s';
      match rest with
      | EmptyString => Some (Some (sign * offset))
      | String _ _ => None
      end
  end.

Definition parse (s : string) : option datetime :=
  '(date, s) ← parse_date s;
  match s with
  | EmptyString => Some (Datetime date None)
  | String _ s' =>
      '(us, s') ← parse_clock s';
      tz ← parse_offset s';
      Some (Datetime (date + us) tz)
  end.

Definition codec : IsoFormat :=
  {| isoformat := format; fromisoformat := parse |}.

End Iso8601.

(** ** Sample configuration, worlds and events

    Concrete inputs on which the program is run in the examples: the
    configuration of a ten-minute cooldown, a world at a given clock with
    given files and no I/O fault, an incoming message of user 42. *)

Definition sample_config : Config := {|
  CONVERSATION_THRESHOLD_SEC := 600;
  TYPING_DELAY_SEC := 2;
  RESPONSES_FILE := "responses_log.json";
  ADMIN_ID_TO_CHECK := 1001;
  ONLINE_THRESHOLD_SEC := 600;
  HEADER_FORMATTED := "Hello! ";
  ACTION_TEXT_BASE := " Leave a message.";
  RESPONSE_ONLINE_DYNAMIC := "I am around.";
  RESPONSE_OFFLINE_DYNAMIC := "I am away."
|}.

Definition sample_world (t : Z) (files : gmap string content) : world :=
  World t (AdminStatusCache.__init__ STATUS_CACHE_TTL_SEC) files [] [] [] [] [].

(** 2023-11-14T22:13:20Z. *)
Definition sample_instant : Z := seconds 1700000000.

Definition sample_client (probe : result (list User)) (typing : result unit)
  : Client :=
  MkClient probe 250000 typing.

Definition sample_event (cl : Client) (send : result unit) : Event :=
  MkEvent false (Return (IsUser (MkUser false UserStatusRecently))) 42 cl
          (Return 42) send.

(** The owner is online; the log file is read once without fault, then
    cannot be opened. *)
Definition unreadable_after_send : world :=
  World sample_instant (AdminStatusCache.__init__ STATUS_CACHE_TTL_SEC)
        {[ "responses_log.json" := Json ∅ ]} [false; true] [] [] [] [].

(** A corrupt log file in a directory where no copy can be made. *)
Definition corrupt_no_copy : world :=
  World sample_instant (AdminStatusCache.__init__ STATUS_CACHE_TTL_SEC)
        {[ "responses_log.json" := Garbled "{oops" ]} [] [Refused] [] [] [].

(** A log with a malformed entry, read 100 seconds after the epoch (a
    machine whose clock was never set). *)
Definition malformed_entry_at_epoch : world :=
  sample_world (seconds 100)
    {[ "responses_log.json" := Json {[ "42" := VStr "yesterday" ]} ]}.

(** ** More of what the properties speak about *)

(** The answer of the classification for a status read at instant [now]. *)
Definition reachable_at `{Config} (status : UserStatus) (now : Z) : bool :=
  match status with
  | UserStatusOnline | UserStatusRecently => true
  | UserStatusOffline (Some was_online) =>
      now - wall was_online <=? seconds ONLINE_THRESHOLD_SEC
  | UserStatusOffline None => false
  | UserStatusOther _ => false
  end.

(** The requests that are replies. *)
Definition is_reply (a : action) : bool :=
  match a with
  | Reply _ => true
  | _ => false
  end.

(** The text of the reply for a reachability [b]. *)
Definition response_text `{Config} (b : bool) : string :=
  HEADER_FORMATTED
    +:+ (if b then RESPONSE_ONLINE_DYNAMIC else RESPONSE_OFFLINE_DYNAMIC)
    +:+ ACTION_TEXT_BASE.

(** The cache answers at the clock of [w]. *)
Definition cache_hit (w : world) : Prop :=
  clock w - cache_timestamp (status_cache w) < seconds (ttl (status_cache w)).

(** * Proofs *)

#[local] Arguments String.append : simpl never.
#[local] Arguments seconds : simpl never.
#[local] Arguments str : simpl never.
#[local] Arguments int_of_float : simpl never.

(** ** Running the monad *)

Lemma bind_return {A B} (m : M A) (k : A -> M B) w a w' :
  m w = (Return a, w') -> bind m k w = k a w'.
Proof. intros E. unfold bind. rewrite E. reflexivity. Qed.

Lemma bind_raise {A B} (m : M A) (k : A -> M B) w e w' :
  m w = (Raise e, w') -> bind m k w = (Raise e, w').
Proof. intros E. unfold bind. rewrite E. reflexivity. Qed.

Lemma next_fault_none (l : list bool) :
  (next_fault l).1 = false -> next_fault l = (false, (next_fault l).2).
Proof. destruct (next_fault l) as [b r]. cbn. intros ->. reflexivity. Qed.

Lemma next_fault_some (l : list bool) :
  (next_fault l).1 = true -> next_fault l = (true, (next_fault l).2).
Proof. destruct (next_fault l) as [b r]. cbn. intros ->. reflexivity. Qed.

Lemma next_fault_is {A : Type} `{Quiet A} (l : list A) (f : A) :
  (next_fault l).1 = f -> next_fault l = (f, (next_fault l).2).
Proof. destruct (next_fault l) as [b r]. cbn. intros ->. reflexivity. Qed.

(** Unfold the program down to the primitive steps. *)
Ltac run :=
  cbv beta delta [ResponseManager.load_log ResponseManager.sync_load
                  ResponseManager.save_log ResponseManager.should_reply
                  ResponseManager._convert_to_timestamp
                  AdminStatusCache.get AdminStatusCache.set
                  bind ret raise lift try_except call
                  os_path.exists_ open_json_load open_json_dump shutil.copy
                  time.time datetime.now asyncio.sleep
                  logger.log logger.debug logger.info logger.warning
                  logger.error logger.critical];
  cbn.

(** The same, with the methods of [ResponseManager] left folded. *)
Ltac run_engine :=
  cbv beta delta [bind ret raise lift try_except call
                  time.time asyncio.sleep
                  logger.log logger.debug logger.info logger.warning
                  logger.error logger.critical];
  cbn -[ResponseManager.save_log].

(** ** Frame lemmas: what a program leaves alone *)

Section Keeps.
Context {B : Type} (f : world -> B).

Lemma keeps_ret {A} (a : A) : keeps f (ret a).
Proof. intros w. reflexivity. Qed.

Lemma keeps_raise {A} (e : exn) : keeps f (@raise A e).
Proof. intros w. reflexivity. Qed.

Lemma keeps_lift {A} (r : result A) : keeps f (lift r).
Proof. intros w. reflexivity. Qed.

Lemma keeps_bind {A C} (m : M A) (k : A -> M C) :
  keeps f m -> (forall a, keeps f (k a)) -> keeps f (bind m k).
Proof.
  intros Hm Hk w. unfold bind. specialize (Hm w).
  destruct (m w) as [[a|e] w']; cbn in *; [rewrite Hk|]; exact Hm.
Qed.

Lemma keeps_try_except {A} (m : M A) (h : exn -> M A) :
  keeps f m -> (forall e, keeps f (h e)) -> keeps f (try_except m h).
Proof.
  intros Hm Hh w. unfold try_except. specialize (Hm w).
  destruct (m w) as [[a|e] w']; cbn in *; [|rewrite Hh]; exact Hm.
Qed.
End Keeps.

Ltac keeps_tac :=
  repeat first
    [ apply keeps_ret | apply keeps_raise | apply keeps_lift
    | apply keeps_bind; [|intros ?]
    | apply keeps_try_except; [|intros ?]
    | (let x := fresh "w" in intros x; destruct x; reflexivity)
    | (let x := fresh "w" in
       intros x; destruct x;
       cbv beta delta [open_json_load open_json_dump shutil.copy
                       os_path.exists_ call asyncio.sleep];
       cbn; repeat case_match; reflexivity)
    | progress cbv beta zeta
    | match goal with
      | |- keeps _ (match ?x with _ => _ end) => destruct x
      end ].

Section Facts.
Context `{Config} `{IsoFormat}.

Lemma load_log_keeps_clock : keeps clock ResponseManager.load_log.
Proof. unfold ResponseManager.load_log, ResponseManager.sync_load. keeps_tac. Qed.
Lemma load_log_keeps_cache : keeps status_cache ResponseManager.load_log.
Proof. unfold ResponseManager.load_log, ResponseManager.sync_load. keeps_tac. Qed.
Lemma load_log_keeps_wire : keeps wire ResponseManager.load_log.
Proof. unfold ResponseManager.load_log, ResponseManager.sync_load. keeps_tac. Qed.
Lemma load_log_keeps_write_faults : keeps write_faults ResponseManager.load_log.
Proof. unfold ResponseManager.load_log, ResponseManager.sync_load. keeps_tac. Qed.

Lemma should_reply_keeps_clock c : keeps clock (ResponseManager.should_reply c).
Proof.
  unfold ResponseManager.should_reply, ResponseManager._convert_to_timestamp,
    ResponseManager.load_log, ResponseManager.sync_load. keeps_tac.
Qed.
Lemma should_reply_keeps_cache c :
  keeps status_cache (ResponseManager.should_reply c).
Proof.
  unfold ResponseManager.should_reply, ResponseManager._convert_to_timestamp,
    ResponseManager.load_log, ResponseManager.sync_load. keeps_tac.
Qed.
Lemma should_reply_keeps_wire c : keeps wire (ResponseManager.should_reply c).
Proof.
  unfold ResponseManager.should_reply, ResponseManager._convert_to_timestamp,
    ResponseManager.load_log, ResponseManager.sync_load. keeps_tac.
Qed.

Lemma save_log_keeps_wire c : keeps wire (ResponseManager.save_log c).
Proof.
  unfold ResponseManager.save_log, ResponseManager.load_log,
    ResponseManager.sync_load. keeps_tac.
Qed.

Lemma check_keeps_disk cl : keeps disk (check_admin_online_status cl).
Proof.
  unfold check_admin_online_status, AdminStatusCache.get,
    AdminStatusCache.set, classify. keeps_tac.
Qed.

(** *** The four ways [load_log] can go *)

Lemma load_log_absent (w : world) :
  disk w !! RESPONSES_FILE = None ->
  ResponseManager.load_log w = (Return ∅, w).
Proof. intros Hd. run. rewrite Hd. reflexivity. Qed.

Lemma load_log_json (w : world) (log : gmap string value) :
  disk w !! RESPONSES_FILE = Some (Json log) ->
  (next_fault (read_faults w)).1 = false ->
  ResponseManager.load_log w =
    (Return log, set_read_faults (next_fault (read_faults w)).2 w).
Proof.
  intros Hd Hf. run. rewrite Hd. run.
  rewrite (next_fault_none _ Hf), Hd. reflexivity.
Qed.

Lemma load_log_unreadable (w : world) (c : content) :
  disk w !! RESPONSES_FILE = Some c ->
  (next_fault (read_faults w)).1 = true ->
  ResponseManager.load_log w =
    (Raise (RuntimeError "Cannot safely proceed without log file access."),
     set_journal
       (journal w ++
          [(CRITICAL,
            "❌ FATAL I/O ERROR reading log file '" +:+ RESPONSES_FILE
              +:+ "': " +:+ "Permission denied")])
       (set_read_faults (next_fault (read_faults w)).2 w)).
Proof.
  intros Hd Hf. run. rewrite Hd. run.
  rewrite (next_fault_some _ Hf). reflexivity.
Qed.

Lemma load_log_undecodable (w : world) :
  disk w !! RESPONSES_FILE = Some Undecodable ->
  (next_fault (read_faults w)).1 = false ->
  ResponseManager.load_log w =
    (Raise (UnicodeDecodeError "invalid start byte"),
     set_read_faults (next_fault (read_faults w)).2 w).
Proof.
  intros Hd Hf. run. rewrite Hd. run.
  rewrite (next_fault_none _ Hf), Hd. reflexivity.
Qed.

Lemma load_log_garbled (w : world) (raw : string) :
  disk w !! RESPONSES_FILE = Some (Garbled raw) ->
  (next_fault (read_faults w)).1 = false ->
  ResponseManager.load_log w =
    (Return ∅,
     let w' := set_copy_faults (next_fault (copy_faults w)).2
                 (set_read_faults (next_fault (read_faults w)).2 w) in
     match (next_fault (copy_faults w)).1 with
     | Refused =>
         set_journal
           (journal w ++
              [(ERROR, "Failed to create backup of corrupted log: "
                         +:+ "Permission denied")]) w'
     | Broken remains =>
         set_journal
           (journal w ++
              [(ERROR, "Failed to create backup of corrupted log: "
                         +:+ "No space left on device")])
           (set_disk (<[backup_name w := remains]> (disk w)) w')
     | NoFault =>
         set_journal
           (journal w ++
              [(CRITICAL, "⚠️ Log file '" +:+ RESPONSES_FILE
                            +:+ "' is corrupted (invalid JSON).");
               (CRITICAL, "💾 BACKUP CREATED: " +:+ backup_name w);
               (WARNING,
                "Starting with a fresh log to keep the bot running.")])
           (set_disk (<[backup_name w := Garbled raw]> (disk w)) w')
     end).
Proof.
  intros Hd Hf. destruct w as [t sc d rf cf wf j wi]; cbn in *. run. rewrite Hd. run.
  rewrite (next_fault_none _ Hf), Hd. cbn.
  destruct (next_fault cf) as [[| |remains] cf']; cbn;
    [ | reflexivity | reflexivity ].
  rewrite Hd. cbn. unfold set_journal, set_disk, backup_name; cbn.
  rewrite <- !app_assoc. reflexivity.
Qed.


(** Every file state is one of the cases above. *)
Lemma load_log_raises (w : world) e w' :
  ResponseManager.load_log w = (Raise e, w') ->
  disk w' = disk w /\
  ((exists m, e = RuntimeError m) \/ (exists m, e = UnicodeDecodeError m)).
Proof.
  destruct (disk w !! RESPONSES_FILE) as [c|] eqn:Hd.
  - destruct (next_fault (read_faults w)).1 eqn:Hf.
    + rewrite (load_log_unreadable w c Hd Hf). intros [= <- <-].
      split; [destruct w; reflexivity | left; eauto].
    + destruct c as [log|raw|].
      * rewrite (load_log_json w log Hd Hf). discriminate.
      * rewrite (load_log_garbled w raw Hd Hf). discriminate.
      * rewrite (load_log_undecodable w Hd Hf). intros [= <- <-].
        split; [destruct w; reflexivity | right; eauto].
  - rewrite (load_log_absent w Hd). discriminate.
Qed.

(** A load that returns gives the persisted entries, and leaves the log
    file itself as it found it. *)
Lemma load_log_returns (w : world) log w' :
  ResponseManager.load_log w = (Return log, w') ->
  log = persisted_log w.
Proof.
  unfold persisted_log.
  destruct (disk w !! RESPONSES_FILE) as [c|] eqn:Hd.
  - destruct (next_fault (read_faults w)).1 eqn:Hf.
    + rewrite (load_log_unreadable w c Hd Hf). discriminate.
    + destruct c as [l|raw|].
      * rewrite (load_log_json w l Hd Hf). congruence.
      * rewrite (load_log_garbled w raw Hd Hf). congruence.
      * rewrite (load_log_undecodable w Hd Hf). discriminate.
  - rewrite (load_log_absent w Hd). congruence.
Qed.

Lemma save_log_raises c (w : world) e w' :
  ResponseManager.save_log c w = (Raise e, w') ->
  disk w' = disk w /\
  ((exists m, e = RuntimeError m) \/ (exists m, e = UnicodeDecodeError m)).
Proof.
  unfold ResponseManager.save_log.
  destruct (ResponseManager.load_log w) as [[log|e0] w0] eqn:Hl.
  - rewrite (bind_return _ _ _ _ _ Hl). run.
    destruct (next_fault (write_faults w0)) as [[| |remains] r]; discriminate.
  - rewrite (bind_raise _ _ _ _ _ Hl). intros [= <- <-].
    eapply load_log_raises; eauto.
Qed.

Lemma save_log_persists c (w w1 : world) :
  ResponseManager.save_log c w = (Return tt, w1) ->
  (next_fault (write_faults w)).1 = false ->
  disk w1 !! RESPONSES_FILE =
    Some (Json (<[c := VStr (isoformat (utc_datetime (clock w)))]>
                  (persisted_log w))).
Proof.
  unfold ResponseManager.save_log. intros Hs Hw.
  destruct (ResponseManager.load_log w) as [[log|e0] w0] eqn:Hl.
  - rewrite (bind_return _ _ _ _ _ Hl) in Hs.
    pose proof (load_log_returns _ _ _ Hl) as ->.
    pose proof (load_log_keeps_clock w) as Hc.
    pose proof (load_log_keeps_write_faults w) as Hwf.
    rewrite Hl in Hc, Hwf. cbn in Hc, Hwf.
    revert Hs. run. rewrite Hwf, (next_fault_is _ _ Hw), Hc. cbn.
    intros [= <-]. destruct w0; cbn. unfold timezone.utc, utc_datetime.
    rewrite Z.add_0_r. apply lookup_insert_eq.
  - rewrite (bind_raise _ _ _ _ _ Hl) in Hs. discriminate.
Qed.

Lemma convert_to_timestamp_run (v : value) (w : world) :
  ResponseManager._convert_to_timestamp v w =
    (conversion v,
     match v with
     | VStr s =>
         match fromisoformat s with
         | None =>
             set_journal
               (journal w ++
                  [(ERROR, "Failed to parse time string: " +:+ s
                             +:+ ". Assuming 0.")]) w
         | Some _ => w
         end
     | VNum _ => w
     end).
Proof.
  destruct v as [x|s]; [reflexivity|]. run. unfold conversion.
  destruct (fromisoformat s) as [[t [off|]]|]; cbn; try reflexivity.
  - unfold datetime.astimezone, datetime.utcoffset, timezone.utc. cbn.
    rewrite Z.add_0_r, andb_diag.
    destruct (off =? 0) eqn:Hoff; cbn.
    + apply Z.eqb_eq in Hoff. subst off.
      unfold datetime.timestamp, datetime.utcoffset. cbn.
      rewrite Z.sub_0_r. reflexivity.
    + destruct (datetime.in_range (t - off)); cbn; [|reflexivity].
      unfold datetime.timestamp, datetime.utcoffset. cbn.
      rewrite Z.sub_0_r. reflexivity.
  - unfold datetime.astimezone, datetime.replace_tzinfo, datetime.utcoffset,
      datetime.timestamp, timezone.utc. cbn. rewrite Z.sub_0_r. reflexivity.
Qed.

(** On what it can convert, the conversion returns the stored instant; on
    the rest it raises [OverflowError]. *)
Lemma conversion_convertible (v : value) :
  convertible v -> conversion v = Return (stored_instant v).
Proof.
  destruct v as [x|s]; cbn.
  - intros Hx. unfold float.
    assert (Hlt : (seconds float_overflow_at <=? Z.abs x) = false)
      by (apply Z.leb_gt; exact Hx).
    rewrite Hlt. reflexivity.
  - destruct (fromisoformat s) as [[t [off|]]|]; try reflexivity.
    intros [-> | Hrange]; [reflexivity|].
    assert (Hin : datetime.in_range (t - off) = true).
    { unfold datetime.in_range. apply andb_true_intro.
      split; apply Z.leb_le; lia. }
    rewrite Hin, orb_true_r. reflexivity.
Qed.

Lemma conversion_overflow (v : value) :
  ~ convertible v -> exists m, conversion v = Raise (OverflowError m).
Proof.
  destruct v as [x|s]; cbn.
  - intros Hx. unfold float.
    assert (Hle : (seconds float_overflow_at <=? Z.abs x) = true)
      by (apply Z.leb_le; lia).
    rewrite Hle. eauto.
  - destruct (fromisoformat s) as [[t [off|]]|]; try tauto.
    intros Hno.
    destruct (off =? 0) eqn:Hoff;
      [apply Z.eqb_eq in Hoff; tauto|].
    destruct (datetime.in_range (t - off)) eqn:Hin; cbn; [|eauto].
    exfalso. apply Hno. right.
    unfold datetime.in_range in Hin. apply andb_prop in Hin.
    destruct Hin as [H1 H2]. apply Z.leb_le in H1, H2. lia.
Qed.

Lemma should_reply_run (c : string) (w w0 : world) log :
  ResponseManager.load_log w = (Return log, w0) ->
  ResponseManager.should_reply c w =
    match log !! c with
    | None => (Return true, w0)
    | Some v =>
        (match conversion v with
         | Return stamp =>
             Return (clock w - stamp >=? seconds CONVERSATION_THRESHOLD_SEC)
         | Raise e => Raise e
         end,
         (ResponseManager._convert_to_timestamp v w0).2)
    end.
Proof.
  intros Hl. unfold ResponseManager.should_reply.
  rewrite (bind_return _ _ _ _ _ Hl).
  destruct (log !! c) as [v|]; [|reflexivity].
  pose proof (load_log_keeps_clock w) as Hc. rewrite Hl in Hc. cbn in Hc.
  unfold bind. rewrite convert_to_timestamp_run. cbn.
  destruct (conversion v) as [stamp|e]; [|reflexivity].
  destruct v as [x|s]; [|destruct (fromisoformat s)]; cbn; rewrite ?Hc;
    reflexivity.
Qed.

(** C1. After [save_log c] has written the log at instant [t1],
    [should_reply c] at [t1 + delta] is false for every [delta] below the
    cooldown window and true from the window on; and [should_reply c] is
    true whenever the log has no entry for [c]. *)
Theorem cooldown_monotonicity (c : string) :
  (forall (w w1 : world),
      ResponseManager.save_log c w = (Return tt, w1) ->
      (next_fault (write_faults w)).1 = false ->
      fromisoformat (isoformat (utc_datetime (clock w)))
        = Some (utc_datetime (clock w)) ->
      forall (delta : Z) (w2 : world),
        disk w2 = disk w1 ->
        clock w2 = clock w + delta ->
        (next_fault (read_faults w2)).1 = false ->
        (delta < seconds CONVERSATION_THRESHOLD_SEC ->
         (ResponseManager.should_reply c w2).1 = Return false) /\
        (delta >= seconds CONVERSATION_THRESHOLD_SEC ->
         (ResponseManager.should_reply c w2).1 = Return true)) /\
  (forall (w w0 : world) log,
      ResponseManager.load_log w = (Return log, w0) ->
      log !! c = None ->
      ResponseManager.should_reply c w = (Return true, w0)).
Proof.
  split.
  - intros w w1 Hs Hw Hiso delta w2 Hd Hc Hr.
    pose proof (save_log_persists c w w1 Hs Hw) as Hp.
    rewrite <- Hd in Hp.
    rewrite (should_reply_run c w2 _ _ (load_log_json w2 _ Hp Hr)).
    rewrite lookup_insert_eq. cbn. rewrite Hiso, Hc. cbn.
    unfold timezone.utc.
    replace (clock w + delta - (clock w - 0)) with delta by lia.
    split; intros Hdelta; f_equal.
    + rewrite Z.geb_leb. apply Z.leb_gt. lia.
    + rewrite Z.geb_leb. apply Z.leb_le. lia.
  - intros w w0 log Hl Hnone.
    rewrite (should_reply_run c w w0 log Hl), Hnone. reflexivity.
Qed.

(** C9. [save_log c] that writes the log sets the entry of [c] to the
    current UTC instant and leaves the entry of every other correspondent
    as persisted before; the log has one entry per correspondent. *)
Theorem upsert_frame (c : string) (w w1 : world) :
  ResponseManager.save_log c w = (Return tt, w1) ->
  (next_fault (write_faults w)).1 = false ->
  persisted_log w1 !! c = Some (VStr (isoformat (utc_datetime (clock w)))) /\
  (forall c', c' <> c -> persisted_log w1 !! c' = persisted_log w !! c') /\
  NoDup (map_to_list (persisted_log w1)).*1.
Proof.
  intros Hs Hw. pose proof (save_log_persists c w w1 Hs Hw) as Hp.
  assert (persisted_log w1 =
            <[c := VStr (isoformat (utc_datetime (clock w)))]>
              (persisted_log w)) as ->.
  { unfold persisted_log at 1. rewrite Hp. reflexivity. }
  split; [apply lookup_insert_eq|]. split.
  - intros c' Hne. apply lookup_insert_ne. congruence.
  - apply NoDup_fst_map_to_list.
Qed.

(** C5 (as amended). A log file that exists and that [json.load] rejects
    is loaded as the empty log, without raising. When the copy to
    [<name>.corrupted_<unix_ts>.bak] succeeds the backup holds the corrupt
    content and two critical records are logged, the second naming the
    backup. When the copy fails, an error is logged in their place: if the
    copy was refused no file is created, and if it failed after writing,
    the backup path holds what the copy left there, all of the corrupt
    content or a part of it. *)
Theorem corrupt_log_recovery (w : world) (raw : string) :
  disk w !! RESPONSES_FILE = Some (Garbled raw) ->
  (next_fault (read_faults w)).1 = false ->
  let r := ResponseManager.load_log w in
  let backup :=
    RESPONSES_FILE +:+ ".corrupted_" +:+ str (int_of_float (clock w))
      +:+ ".bak" in
  r.1 = Return ∅ /\
  match (next_fault (copy_faults w)).1 with
  | NoFault =>
      disk r.2 = <[backup := Garbled raw]> (disk w) /\
      journal r.2 =
        journal w ++
          [(CRITICAL, "⚠️ Log file '" +:+ RESPONSES_FILE
                        +:+ "' is corrupted (invalid JSON).");
           (CRITICAL, "💾 BACKUP CREATED: " +:+ backup);
           (WARNING, "Starting with a fresh log to keep the bot running.")]
  | Refused =>
      disk r.2 = disk w /\
      journal r.2 =
        journal w ++
          [(ERROR, "Failed to create backup of corrupted log: "
                     +:+ "Permission denied")]
  | Broken remains =>
      disk r.2 = <[backup := remains]> (disk w) /\
      journal r.2 =
        journal w ++
          [(ERROR, "Failed to create backup of corrupted log: "
                     +:+ "No space left on device")]
  end.
Proof.
  intros Hd Hf r backup. subst r.
  rewrite (load_log_garbled w raw Hd Hf).
  split; [reflexivity|].
  destruct w as [t sc d rf cf wf j wi]; cbn.
  destruct (next_fault cf) as [[| |remains] cf']; cbn; split; reflexivity.
Qed.

(** A stored value the conversion cannot take makes [should_reply] raise:
    the [OverflowError] is not a [ValueError] and passes the handler. *)
Lemma should_reply_overflow (c : string) (v : value) (w w0 : world) log :
  ResponseManager.load_log w = (Return log, w0) ->
  log !! c = Some v ->
  ~ convertible v ->
  exists m, (ResponseManager.should_reply c w).1 = Raise (OverflowError m).
Proof.
  intros Hl Hv Hno.
  rewrite (should_reply_run c w w0 log Hl), Hv. cbn.
  destruct (conversion_overflow v Hno) as [m ->]. eauto.
Qed.

(** C8 (as amended). On a stored number within the range of the floats,
    and on a stored string that has no zone, or does not parse, or has a
    zone and an instant in UTC within the range of [datetime],
    [should_reply] returns: it reads the number as epoch seconds, the
    string without zone as UTC, the one with a zone at its offset, and the
    one that does not parse as epoch 0, with an error logged; in that last
    case it answers true exactly when the clock reads at least one cooldown
    window. *)
Theorem timestamp_parsing_tolerance (c : string) (v : value)
    (w w0 : world) log :
  ResponseManager.load_log w = (Return log, w0) ->
  log !! c = Some v ->
  convertible v ->
  let r := ResponseManager.should_reply c w in
  r.1 = Return (clock w - stored_instant v
                >=? seconds CONVERSATION_THRESHOLD_SEC) /\
  match v with
  | VNum x => stored_instant v = x
  | VStr s =>
      match fromisoformat s with
      | Some (Datetime t None) => stored_instant v = t
      | Some (Datetime t (Some offset)) => stored_instant v = t - offset
      | None =>
          stored_instant v = 0 /\
          journal r.2 =
            journal w0 ++
              [(ERROR, "Failed to parse time string: " +:+ s
                         +:+ ". Assuming 0.")] /\
          (r.1 = Return true <->
           seconds CONVERSATION_THRESHOLD_SEC <= clock w)
      end
  end.
Proof.
  intros Hl Hv Hok r. subst r.
  rewrite (should_reply_run c w w0 log Hl), Hv. cbn.
  rewrite (conversion_convertible v Hok).
  split; [reflexivity|].
  destruct v as [x|s]; [reflexivity|]. cbn.
  destruct (fromisoformat s) as [[t [off|]]|] eqn:Hp; try reflexivity.
  split; [reflexivity|]. split; [reflexivity|].
  rewrite Z.sub_0_r, Z.geb_leb. split.
  - intros [= Hle]. apply Z.leb_le. exact Hle.
  - intros Hle. apply Z.leb_le in Hle. rewrite Hle. reflexivity.
Qed.

(** *** The reachability check *)

Lemma check_cache_hit (cl : Client) (w : world) :
  clock w - cache_timestamp (status_cache w)
    < seconds (ttl (status_cache w)) ->
  check_admin_online_status cl w =
    (Return (cache_is_online (status_cache w)),
     set_journal (journal w ++ [(DEBUG, "Admin status: using cache.")]) w).
Proof.
  intros Hlt. apply Z.ltb_lt in Hlt.
  unfold check_admin_online_status. run. rewrite Hlt. reflexivity.
Qed.

Lemma check_probe_raises (cl : Client) (w : world) (e : exn) :
  cache_miss w ->
  answer_GetUsersRequest cl = Raise e ->
  check_admin_online_status cl w =
    (Return false,
     World (clock w + latency_GetUsersRequest cl)
           (MkStatusCache (ttl (status_cache w)) false
                          (clock w + latency_GetUsersRequest cl))
           (disk w) (read_faults w) (copy_faults w) (write_faults w)
           (journal w ++
              [(DEBUG, "Admin status cache expired. Performing live check.");
               (ERROR, "Error checking admin status: " +:+ exn_str e
                         +:+ ". Falling back to default/cached status (False).")])
           (wire w ++ [GetUsersRequest [ADMIN_ID_TO_CHECK]])).
Proof.
  unfold cache_miss. intros Hmiss Hans.
  assert (Hge : (clock w - cache_timestamp (status_cache w)
                 <? seconds (ttl (status_cache w))) = false)
    by (apply Z.ltb_ge; lia).
  unfold check_admin_online_status. run. rewrite Hge. run. rewrite Hans.
  destruct w; cbn. rewrite <- app_assoc. reflexivity.
Qed.

Lemma classify_returns (s : UserStatus) (w : world) :
  exists b, (classify s w).1 = Return b.
Proof.
  destruct s as [| |[t|]|n]; cbn; eauto. run.
  match goal with |- context [if ?c then _ else _] => destruct c end;
    cbn; eauto.
Qed.

(** The check never raises. *)
Lemma check_returns (cl : Client) (w : world) :
  exists b, (check_admin_online_status cl w).1 = Return b.
Proof.
  unfold check_admin_online_status. run.
  destruct (_ <? _); run; [eauto|].
  destruct (answer_GetUsersRequest cl) as [[|u l]|e]; run; eauto.
  match goal with
  | |- context [classify ?s ?w0] =>
      destruct (classify_returns s w0) as [b Hb];
      destruct (classify s w0) as [r w1]; cbn in Hb; subst r
  end.
  cbn. eauto.
Qed.

(** *** The handlers and the [try] block of [process_message] *)

Lemma process_message_except_run (e : exn) (w : world) :
  process_message_except e w =
    (Return tt,
     match e with
     | FloodWaitError secs =>
         set_wire (wire w ++ [Sleep secs])
           (set_clock (clock w + seconds secs)
              (set_journal
                 (journal w ++
                    [(WARNING, "⚠️ FloodWait: " +:+ str secs
                                 +:+ " сек. Ожидание...")]) w))
     | _ =>
         set_journal
           (journal w ++
              [(ERROR, "❌ Ошибка при обработке сообщения: "
                         +:+ exn_str e)]) w
     end).
Proof. destruct e; reflexivity. Qed.

Lemma keeps_on_raise_bind {A C B} (f : world -> B) (m : M A) (k : A -> M C) :
  keeps f m -> (forall a, keeps_on_raise f (k a)) ->
  keeps_on_raise f (bind m k).
Proof.
  intros Hm Hk w e w'. unfold bind. specialize (Hm w).
  destruct (m w) as [[a|e0] w0]; cbn in Hm.
  - intros Hr. rewrite (Hk a w0 e w' Hr). exact Hm.
  - intros [= <- <-]. exact Hm.
Qed.

Lemma body_keeps_disk_on_raise (event : Event) (sender : string) :
  keeps_on_raise disk (process_message_body event sender).
Proof.
  unfold process_message_body.
  apply keeps_on_raise_bind; [keeps_tac | intros chat_input].
  apply keeps_on_raise_bind; [apply check_keeps_disk | intros b].
  apply keeps_on_raise_bind; [keeps_tac | intros part].
  apply keeps_on_raise_bind; [keeps_tac | intros _].
  apply keeps_on_raise_bind; [keeps_tac | intros _].
  apply keeps_on_raise_bind; [keeps_tac | intros _].
  intros w e w'. unfold bind.
  destruct (ResponseManager.save_log sender w) as [[[]|e0] w0] eqn:Hs.
  - discriminate.
  - intros [= <- <-]. eapply save_log_raises; eauto.
Qed.

Lemma try_block_absorbs (event : Event) (sender : string) (w0 : world) e w1 :
  process_message_body event sender w0 = (Raise e, w1) ->
  try_except (process_message_body event sender) process_message_except w0
    = process_message_except e w1
  /\ disk (process_message_except e w1).2 = disk w0.
Proof.
  intros Hb. split.
  - unfold try_except. rewrite Hb. reflexivity.
  - rewrite process_message_except_run. cbn.
    rewrite <- (body_keeps_disk_on_raise event sender w0 e w1 Hb).
    destruct e, w1; reflexivity.
Qed.

Lemma body_raises_on_send_failure (event : Event) (sender : string)
    (w0 : world) (e : exn) (peer : Z) :
  get_input_chat event = Return peer ->
  answer_SetTypingRequest (client event) = Raise e \/
  (answer_SetTypingRequest (client event) = Return tt /\
   answer_reply event = Raise e) ->
  exists w1, process_message_body event sender w0 = (Raise e, w1).
Proof.
  intros Hp Hfail. unfold process_message_body. run. rewrite Hp. cbn.
  destruct (check_returns (client event) w0) as [b Hb].
  destruct (check_admin_online_status (client event) w0) as [r w1].
  cbn in Hb. subst r. cbn.
  destruct Hfail as [Ht | [Ht Hr]]; rewrite Ht; destruct b; cbn;
    rewrite ?Hr; eauto.
Qed.

(** *** The log file under [load_log] *)

Lemma append_fixpoint (a b : string) : a +:+ b = a -> b = "".
Proof.
  induction a as [|ch a IH]; cbn; [auto|]. intros [= E]. auto.
Qed.

Lemma backup_name_fresh (w : world) : backup_name w <> RESPONSES_FILE.
Proof.
  unfold backup_name. intros E. apply append_fixpoint in E. discriminate.
Qed.

Lemma load_log_keeps_log_file (w : world) :
  disk (ResponseManager.load_log w).2 !! RESPONSES_FILE
    = disk w !! RESPONSES_FILE.
Proof.
  destruct (disk w !! RESPONSES_FILE) as [c|] eqn:Hd.
  - destruct (next_fault (read_faults w)).1 eqn:Hf.
    + rewrite (load_log_unreadable w c Hd Hf). destruct w; exact Hd.
    + destruct c as [log|raw|].
      * rewrite (load_log_json w log Hd Hf). destruct w; exact Hd.
      * rewrite (load_log_garbled w raw Hd Hf). cbn.
        destruct (next_fault (copy_faults w)).1 as [| |remains];
          [|destruct w; exact Hd|];
          destruct w; cbn in *;
          (rewrite lookup_insert_ne; [exact Hd | apply backup_name_fresh]).
      * rewrite (load_log_undecodable w Hd Hf). destruct w; exact Hd.
  - rewrite (load_log_absent w Hd). exact Hd.
Qed.

Lemma bind_keeps_after {A C B} (f : world -> B) (m : M A) (k : A -> M C) w :
  (forall a, keeps f (k a)) -> f (bind m k w).2 = f (m w).2.
Proof.
  intros Hk. unfold bind. destruct (m w) as [[a|e] w']; [apply Hk|reflexivity].
Qed.

Lemma should_reply_keeps_log_file (c : string) (w : world) :
  disk (ResponseManager.should_reply c w).2 !! RESPONSES_FILE
    = disk w !! RESPONSES_FILE.
Proof.
  unfold ResponseManager.should_reply.
  rewrite (bind_keeps_after disk); [apply load_log_keeps_log_file|].
  intros log. unfold ResponseManager._convert_to_timestamp. keeps_tac.
Qed.

Lemma load_log_value_depends (wa wb : world) :
  disk wa !! RESPONSES_FILE = disk wb !! RESPONSES_FILE ->
  read_faults wa = read_faults wb ->
  (ResponseManager.load_log wa).1 = (ResponseManager.load_log wb).1.
Proof.
  intros Hd Hr.
  destruct (disk wb !! RESPONSES_FILE) as [c|] eqn:Hb.
  - destruct (next_fault (read_faults wb)).1 eqn:Hf;
      pose proof Hf as Hf'; rewrite <- Hr in Hf'.
    + rewrite (load_log_unreadable wa c Hd Hf'),
        (load_log_unreadable wb c Hb Hf). reflexivity.
    + destruct c as [log|raw|].
      * rewrite (load_log_json wa log Hd Hf'), (load_log_json wb log Hb Hf).
        reflexivity.
      * rewrite (load_log_garbled wa raw Hd Hf'),
          (load_log_garbled wb raw Hb Hf). reflexivity.
      * rewrite (load_log_undecodable wa Hd Hf'),
          (load_log_undecodable wb Hb Hf). reflexivity.
  - rewrite (load_log_absent wa Hd), (load_log_absent wb Hb). reflexivity.
Qed.

Lemma should_reply_value (c : string) (w : world) :
  (ResponseManager.should_reply c w).1 =
    match (ResponseManager.load_log w).1 with
    | Return log =>
        match log !! c with
        | None => Return true
        | Some v =>
            match conversion v with
            | Return stamp =>
                Return (clock w - stamp
                        >=? seconds CONVERSATION_THRESHOLD_SEC)
            | Raise e => Raise e
            end
        end
    | Raise e => Raise e
    end.
Proof.
  destruct (ResponseManager.load_log w) as [[log|e] w0] eqn:Hl; cbn.
  - rewrite (should_reply_run c w w0 log Hl).
    destruct (log !! c); reflexivity.
  - unfold ResponseManager.should_reply.
    rewrite (bind_raise _ _ _ _ _ Hl). reflexivity.
Qed.

(** The answer of [should_reply] is a function of the log file, the clock
    and the read faults to come. *)
Lemma should_reply_depends (c : string) (wa wb : world) :
  disk wa !! RESPONSES_FILE = disk wb !! RESPONSES_FILE ->
  clock wa = clock wb ->
  read_faults wa = read_faults wb ->
  (ResponseManager.should_reply c wa).1
    = (ResponseManager.should_reply c wb).1.
Proof.
  intros Hd Hc Hr. rewrite !should_reply_value.
  rewrite (load_log_value_depends wa wb Hd Hr), Hc. reflexivity.
Qed.

(** Past the filters and the throttle, [process_message] is its [try]
    statement, entered with the clock, cache, faults, wire and log file
    that [should_reply] found. *)
Lemma process_message_enters (event : Event) (u : User) (w : world) :
  out event = false ->
  get_chat event = Return (IsUser u) ->
  bot u = false ->
  (ResponseManager.should_reply (str (sender_id event)) w).1 = Return true ->
  exists w0,
    process_message event w =
      try_except (process_message_body event (str (sender_id event)))
                 process_message_except w0 /\
    clock w0 = clock w /\ status_cache w0 = status_cache w /\
    wire w0 = wire w /\
    disk w0 !! RESPONSES_FILE = disk w !! RESPONSES_FILE.
Proof.
  intros Hout Hchat Hbot Hshould.
  pose proof (should_reply_keeps_clock (str (sender_id event)) w) as Hc.
  pose proof (should_reply_keeps_cache (str (sender_id event)) w) as Hsc.
  pose proof (should_reply_keeps_wire (str (sender_id event)) w) as Hw.
  pose proof (should_reply_keeps_log_file (str (sender_id event)) w) as Hf.
  unfold process_message. rewrite Hout, Hchat. unfold lift, bind at 1.
  rewrite Hbot. unfold bind at 1.
  destruct (ResponseManager.should_reply (str (sender_id event)) w)
    as [r w0]. cbn in *. subst r. cbn.
  eexists. split; [reflexivity|]. destruct w0; cbn in *. auto.
Qed.

(** C2. The classification is true for a status online or recently
    active; for an offline status with a last-seen instant [t] it is true
    exactly when [now - t] is at most the online threshold; for an offline
    status without one, and for every other status, it is false. *)
Theorem reachability_classification (s : UserStatus) (w : world) :
  (classify s w).1 =
    Return match s with
           | UserStatusOnline | UserStatusRecently => true
           | UserStatusOffline (Some t) =>
               clock w - wall t <=? seconds ONLINE_THRESHOLD_SEC
           | UserStatusOffline None => false
           | UserStatusOther _ => false
           end.
Proof.
  destruct s as [| |[t|]|n]; cbn; try reflexivity. run.
  unfold datetime.sub_total_seconds, datetime.timestamp,
    datetime.utcoffset, timezone.utc. cbn.
  replace (clock w + 0 - 0 - (wall t - 0)) with (clock w - wall t) by lia.
  destruct (clock w - wall t <=? seconds ONLINE_THRESHOLD_SEC); reflexivity.
Qed.

(** C10. A probe that raises during a cache miss leaves [false] in the
    cache, stamped with the clock [t0] of that moment; every later check
    within [ttl] of [t0] answers [false] from the cache and sends no
    request, whatever the probe would answer then. *)
Theorem probe_failure_is_cached (cl cl2 : Client) (w w2 : world) (e : exn) :
  cache_miss w ->
  answer_GetUsersRequest cl = Raise e ->
  let r := check_admin_online_status cl w in
  let t0 := clock r.2 in
  r.1 = Return false /\
  status_cache r.2 = MkStatusCache (ttl (status_cache w)) false t0 /\
  (status_cache w2 = status_cache r.2 ->
   clock w2 - t0 < seconds (ttl (status_cache w)) ->
   let r2 := check_admin_online_status cl2 w2 in
   r2.1 = Return false /\ wire r2.2 = wire w2 /\
   status_cache r2.2 = status_cache w2).
Proof.
  intros Hmiss Hans r t0. subst t0 r.
  rewrite (check_probe_raises cl w e Hmiss Hans). cbn.
  split; [reflexivity|]. split; [reflexivity|].
  intros Hsc Hlt.
  rewrite (check_cache_hit cl2 w2) by (rewrite Hsc; cbn; exact Hlt).
  rewrite Hsc. destruct w2; cbn. auto.
Qed.

(** C4. An error of the presence probe during a cache miss is caught and
    logged and the owner is taken as not reachable; [process_message]
    raises nothing, goes on to the typing request, and when typing and
    send succeed the reply sent is the offline variant. *)
Theorem probe_failure_fail_safe (event : Event) (u : User) (w : world)
    (e : exn) (peer : Z) :
  out event = false ->
  get_chat event = Return (IsUser u) ->
  bot u = false ->
  (ResponseManager.should_reply (str (sender_id event)) w).1 = Return true ->
  get_input_chat event = Return peer ->
  cache_miss w ->
  answer_GetUsersRequest (client event) = Raise e ->
  let c := check_admin_online_status (client event) w in
  let r := process_message event w in
  (c.1 = Return false /\
   journal c.2 =
     journal w ++
       [(DEBUG, "Admin status cache expired. Performing live check.");
        (ERROR, "Error checking admin status: " +:+ exn_str e
                  +:+ ". Falling back to default/cached status (False).")]) /\
  r.1 = Return tt /\
  (exists rest,
      wire r.2 =
        wire w ++ GetUsersRequest [ADMIN_ID_TO_CHECK]
               :: SetTypingRequest peer :: rest) /\
  (answer_SetTypingRequest (client event) = Return tt ->
   answer_reply event = Return tt ->
   wire r.2 =
     wire w ++ [GetUsersRequest [ADMIN_ID_TO_CHECK];
                SetTypingRequest peer;
                Sleep TYPING_DELAY_SEC;
                Reply offline_response]).
Proof.
  intros Hout Hchat Hbot Hshould Hpeer Hmiss Hans c r. subst c r.
  split.
  { rewrite (check_probe_raises _ w e Hmiss Hans). split; reflexivity. }
  destruct (process_message_enters event u w Hout Hchat Hbot Hshould)
    as (w0 & -> & Hc & Hsc & Hw & _).
  assert (Hmiss0 : cache_miss w0)
    by (unfold cache_miss in *; rewrite Hc, Hsc; exact Hmiss).
  cbv beta delta [try_except process_message_body lift bind].
  rewrite Hpeer. cbn.
  rewrite (check_probe_raises _ w0 e Hmiss0 Hans).
  rewrite <- Hw. clear Hmiss0 Hmiss Hshould Hc Hsc Hw.
  destruct w0 as [t sc d rf cf wf j wi]. run_engine.
  destruct (answer_SetTypingRequest (client event)) as [[]|e1];
    cbn -[ResponseManager.save_log].
  2:{ rewrite process_message_except_run.
      split; [reflexivity|]. split; [|discriminate].
      destruct e1; cbn; rewrite <- ?app_assoc; cbn; eauto. }
  destruct (answer_reply event) as [[]|e2]; cbn -[ResponseManager.save_log].
  2:{ rewrite process_message_except_run.
      split; [reflexivity|]. split; [|discriminate].
      destruct e2; cbn; rewrite <- ?app_assoc; cbn; eauto. }
  match goal with
  | |- context [ResponseManager.save_log ?c ?w5] =>
      pose proof (save_log_keeps_wire c w5) as Hwire;
      pose proof (save_log_raises c w5) as Hraise;
      destruct (ResponseManager.save_log c w5) as [[[]|e3] w6]
  end; cbn in Hwire.
  - cbn. rewrite Hwire, <- !app_assoc. cbn. eauto.
  - rewrite process_message_except_run.
    destruct (Hraise e3 w6 eq_refl) as [_ [[m ->]|[m ->]]]; cbn;
      destruct w6; cbn in *; subst; rewrite <- !app_assoc; cbn; eauto.
Qed.

(** C3. After [set v] at instant [t0] the cache holds [v] stamped [t0],
    whatever it held before; [get] at an instant [t] answers [Some v]
    when [t - t0 < ttl] and [None] when [t - t0 >= ttl]. *)
Theorem cache_ttl_boundary (v : bool) (w0 w : world) :
  let t0 := clock w0 in
  let s := AdminStatusCache.set v w0 in
  s.1 = Return tt /\
  status_cache s.2 = MkStatusCache (ttl (status_cache w0)) v t0 /\
  (status_cache w = status_cache s.2 ->
   (clock w - t0 < seconds (ttl (status_cache w0)) ->
    (AdminStatusCache.get w).1 = Return (Some v)) /\
   (clock w - t0 >= seconds (ttl (status_cache w0)) ->
    (AdminStatusCache.get w).1 = Return None)).
Proof.
  intros t0 s. subst t0 s. cbn.
  split; [reflexivity|]. split; [reflexivity|].
  intros Hc. run. rewrite Hc. cbn. split; intros Ht.
  - apply Z.ltb_lt in Ht. rewrite Ht. reflexivity.
  - assert (Hf : (clock w - clock w0 <? seconds (ttl (status_cache w0)))
                 = false) by (apply Z.ltb_ge; lia).
    rewrite Hf. reflexivity.
Qed.

(** C7. Every exception raised inside the [try] block of
    [process_message] is absorbed there with no file written: a
    [FloodWaitError] is followed by a sleep of its duration, any other
    exception is logged. In particular when the typing request or the send
    raises, [process_message] returns, the log file is as it was and so is
    every later answer of [should_reply]. *)
Theorem failed_send_atomicity (event : Event) :
  let sender := str (sender_id event) in
  (forall (w0 : world) (e : exn) (w1 : world),
      process_message_body event sender w0 = (Raise e, w1) ->
      let r := try_except (process_message_body event sender)
                          process_message_except w0 in
      r.1 = Return tt /\
      disk r.2 = disk w0 /\
      match e with
      | FloodWaitError secs =>
          wire r.2 = wire w1 ++ [Sleep secs] /\
          clock r.2 = clock w1 + seconds secs
      | _ =>
          wire r.2 = wire w1 /\
          journal r.2 =
            journal w1 ++
              [(ERROR, "❌ Ошибка при обработке сообщения: " +:+ exn_str e)]
      end) /\
  (forall (u : User) (w : world) (e : exn) (peer : Z),
      out event = false ->
      get_chat event = Return (IsUser u) ->
      bot u = false ->
      (ResponseManager.should_reply sender w).1 = Return true ->
      get_input_chat event = Return peer ->
      answer_SetTypingRequest (client event) = Raise e \/
      (answer_SetTypingRequest (client event) = Return tt /\
       answer_reply event = Raise e) ->
      let r := process_message event w in
      r.1 = Return tt /\
      disk r.2 !! RESPONSES_FILE = disk w !! RESPONSES_FILE /\
      (forall c w',
          (ResponseManager.should_reply c (set_disk (disk r.2) w')).1
          = (ResponseManager.should_reply c (set_disk (disk w) w')).1) /\
      match e with
      | FloodWaitError secs => last (wire r.2) = Some (Sleep secs)
      | _ =>
          last (journal r.2) =
            Some (ERROR, "❌ Ошибка при обработке сообщения: " +:+ exn_str e)
      end).
Proof.
  intros sender. subst sender. split.
  - intros w0 e w1 Hb r. subst r.
    destruct (try_block_absorbs event _ w0 e w1 Hb) as [-> Hd].
    split; [rewrite process_message_except_run; reflexivity|].
    split; [exact Hd|].
    rewrite process_message_except_run. destruct e, w1; cbn; auto.
  - intros u w e peer Hout Hchat Hbot Hshould Hpeer Hfail r. subst r.
    destruct (process_message_enters event u w Hout Hchat Hbot Hshould)
      as (w0 & -> & _ & _ & _ & Hfile).
    destruct (body_raises_on_send_failure event (str (sender_id event))
                w0 e peer Hpeer Hfail) as [w1 Hb].
    destruct (try_block_absorbs event _ w0 e w1 Hb) as [-> Hd].
    assert (Hlog : disk (process_message_except e w1).2 !! RESPONSES_FILE
                   = disk w !! RESPONSES_FILE) by (rewrite Hd; exact Hfile).
    split; [rewrite process_message_except_run; reflexivity|].
    split; [exact Hlog|]. split.
    + intros c w'. apply should_reply_depends;
        destruct w'; cbn; auto.
    + rewrite process_message_except_run.
      destruct e, w1; cbn; apply last_snoc.
Qed.

(** *** Storage failures *)

(** A log file that cannot be read stops [process_message] at the throttle
    check: the [RuntimeError] of [load_log] leaves the function. *)
Lemma throttle_propagates_storage_failure (event : Event) (u : User)
    (w : world) (c : content) :
  out event = false ->
  get_chat event = Return (IsUser u) ->
  bot u = false ->
  disk w !! RESPONSES_FILE = Some c ->
  (next_fault (read_faults w)).1 = true ->
  (process_message event w).1 =
    Raise (RuntimeError "Cannot safely proceed without log file access.").
Proof.
  intros Hout Hchat Hbot Hd Hf.
  unfold process_message. rewrite Hout, Hchat. unfold lift, bind at 1.
  rewrite Hbot. unfold bind at 1, ResponseManager.should_reply.
  rewrite (bind_raise _ _ _ _ _ (load_log_unreadable w c Hd Hf)).
  reflexivity.
Qed.

(** Past the throttle check nothing leaves [process_message]: whatever the
    [try] block raises, the failure of [save_log] to read the log included,
    ends in a handler. *)
Lemma nothing_propagates_past_throttle (event : Event) (u : User) (w : world) :
  out event = false ->
  get_chat event = Return (IsUser u) ->
  bot u = false ->
  (ResponseManager.should_reply (str (sender_id event)) w).1 = Return true ->
  (process_message event w).1 = Return tt.
Proof.
  intros Hout Hchat Hbot Hshould.
  destruct (process_message_enters event u w Hout Hchat Hbot Hshould)
    as (w0 & -> & _).
  unfold try_except.
  destruct (process_message_body event (str (sender_id event)) w0)
    as [[[]|e] w1]; [reflexivity|].
  rewrite process_message_except_run. reflexivity.
Qed.

End Facts.

(** * The program on the sample inputs *)

(** C6. The owner is online and user 42 writes; the log file is read at the
    throttle check, the reply is sent, and when [save_log] opens the file
    again the read fails. [load_log] raises its [RuntimeError], the critical
    record is logged, and [process_message] returns as after any other
    error: nothing is propagated, and the log still has no entry for 42. *)
Theorem storage_failure_absorbed_after_send :
  let event :=
    sample_event
      (sample_client (Return [MkUser false UserStatusOnline]) (Return tt))
      (Return tt) in
  let r := @process_message sample_config Iso8601.codec event
             unreadable_after_send in
  r.1 = Return tt /\
  wire r.2 =
    [GetUsersRequest [1001]; SetTypingRequest 42; Sleep 2;
     Reply "Hello! I am around. Leave a message."] /\
  journal r.2 =
    [(INFO, "📨 Входящее/Редактирование от 42. Обработка...");
     (DEBUG, "Admin status cache expired. Performing live check.");
     (INFO, "Admin status: Online/Recently (Live Check).");
     (INFO, "-> Статус: ОНЛАЙН.");
     (CRITICAL,
      "❌ FATAL I/O ERROR reading log file 'responses_log.json': Permission denied");
     (ERROR,
      "❌ Ошибка при обработке сообщения: Cannot safely proceed without log file access.")] /\
  @persisted_log sample_config r.2 !! "42" = None.
Proof.
  vm_compute. repeat split; reflexivity.
Qed.

(** C5, the claim as stated fails: the corrupt log is loaded as the empty
    log, but the copy could not be made, so there is no backup file and no
    critical record, only the error of the failed copy. *)
Lemma corrupt_log_backup_can_fail :
  let r := @ResponseManager.load_log sample_config corrupt_no_copy in
  disk corrupt_no_copy !! "responses_log.json" = Some (Garbled "{oops") /\
  r.1 = Return ∅ /\
  @backup_name sample_config corrupt_no_copy
    = "responses_log.json.corrupted_1700000000.bak" /\
  disk r.2 !! "responses_log.json.corrupted_1700000000.bak" = None /\
  disk r.2 = disk corrupt_no_copy /\
  journal r.2 =
    [(ERROR, "Failed to create backup of corrupted log: Permission denied")].
Proof.
  vm_compute. repeat split; reflexivity.
Qed.

(** C8, the claim as stated fails: the entry of 42 is a string that does
    not parse, it is taken as epoch 0, and [should_reply] answers false
    because the clock reads less than one cooldown window. *)
Lemma malformed_entry_not_always_eligible :
  let r := @ResponseManager.should_reply sample_config Iso8601.codec "42"
             malformed_entry_at_epoch in
  @persisted_log sample_config malformed_entry_at_epoch !! "42"
    = Some (VStr "yesterday") /\
  Iso8601.parse "yesterday" = None /\
  r.1 = Return false /\
  journal r.2 =
    [(ERROR, "Failed to parse time string: yesterday. Assuming 0.")].
Proof.
  vm_compute. repeat split; reflexivity.
Qed.

(** The stored values on which the conversion raises instead of
    returning: an integer beyond the range of the floats, and a string with
    a zone whose instant in UTC is before year 1. *)
Lemma overflowing_entries_raise :
  let w v :=
    sample_world sample_instant
      {[ "responses_log.json" := Json {[ "42" := v ]} ]} in
  (@ResponseManager.should_reply sample_config Iso8601.codec "42"
     (w (VNum (seconds (10 ^ 400))))).1
    = Raise (OverflowError "int too large to convert to float") /\
  (@ResponseManager.should_reply sample_config Iso8601.codec "42"
     (w (VStr "0001-01-01T00:00:00+01:00"))).1
    = Raise (OverflowError "date value out of range").
Proof.
  vm_compute. split; reflexivity.
Qed.

(** ** The theorems on the sample inputs *)

Ltac discharge :=
  first [ reflexivity
        | vm_compute; reflexivity
        | vm_compute; discriminate
        | vm_compute; lia ].

(** User 42 is answered at [sample_instant] with no log on disk; five
    seconds later the check refuses, ten minutes later it accepts. *)
Lemma cooldown_monotonicity_witness :
  let w := sample_world sample_instant ∅ in
  let w1 := (@ResponseManager.save_log sample_config Iso8601.codec "42" w).2 in
  (@ResponseManager.should_reply sample_config Iso8601.codec "42"
     (set_clock (sample_instant + seconds 5) w1)).1 = Return false /\
  (@ResponseManager.should_reply sample_config Iso8601.codec "42"
     (set_clock (sample_instant + seconds 600) w1)).1 = Return true.
Proof.
  intros w w1.
  pose proof (proj1 (@cooldown_monotonicity sample_config Iso8601.codec "42")
                w w1 ltac:(discharge) ltac:(discharge) ltac:(discharge)) as H.
  split.
  - apply (H (seconds 5) (set_clock (sample_instant + seconds 5) w1));
      discharge.
  - apply (H (seconds 600) (set_clock (sample_instant + seconds 600) w1));
      discharge.
Defined.

(** The log holds an older entry of user 7; answering 42 adds the entry of
    42 and keeps that of 7. *)
Lemma upsert_frame_witness :
  let w :=
    sample_world sample_instant
      {[ "responses_log.json" := Json {[ "7" := VNum (seconds 1699990000) ]} ]} in
  let w1 := (@ResponseManager.save_log sample_config Iso8601.codec "42" w).2 in
  @persisted_log sample_config w1 !! "42"
    = Some (VStr "2023-11-14T22:13:20+00:00") /\
  @persisted_log sample_config w1 !! "7" = Some (VNum (seconds 1699990000)).
Proof.
  intros w w1.
  destruct (@upsert_frame sample_config Iso8601.codec "42" w w1
              ltac:(discharge) ltac:(discharge)) as (Hc & Hother & _).
  split.
  - rewrite Hc. discharge.
  - rewrite (Hother "7") by discriminate. discharge.
Defined.

(** [set true] at [sample_instant] with the ttl of 30 seconds: a hit one
    microsecond before the ttl has passed, a miss when it has. *)
Lemma cache_ttl_boundary_witness :
  let w0 := sample_world sample_instant ∅ in
  let w1 := (AdminStatusCache.set true w0).2 in
  (AdminStatusCache.get (set_clock (sample_instant + seconds 30 - 1) w1)).1
    = Return (Some true) /\
  (AdminStatusCache.get (set_clock (sample_instant + seconds 30) w1)).1
    = Return None.
Proof.
  intros w0 w1. split.
  - apply (cache_ttl_boundary true w0
             (set_clock (sample_instant + seconds 30 - 1) w1));
      discharge.
  - apply (cache_ttl_boundary true w0
             (set_clock (sample_instant + seconds 30) w1));
      discharge.
Defined.

(** The probe fails with a transport error: the reply goes out, with the
    offline text. *)
Lemma probe_failure_fail_safe_witness :
  let event :=
    sample_event
      (sample_client (Raise (RPCError "Connection reset by peer")) (Return tt))
      (Return tt) in
  let r := @process_message sample_config Iso8601.codec event
             (sample_world sample_instant ∅) in
  r.1 = Return tt /\
  wire r.2 =
    [GetUsersRequest [1001]; SetTypingRequest 42; Sleep 2;
     Reply "Hello! I am away. Leave a message."].
Proof.
  intros event r.
  destruct (@probe_failure_fail_safe sample_config Iso8601.codec event
              (MkUser false UserStatusRecently)
              (sample_world sample_instant ∅)
              (RPCError "Connection reset by peer") 42
              ltac:(discharge) ltac:(discharge) ltac:(discharge)
              ltac:(discharge) ltac:(discharge) ltac:(discharge)
              ltac:(discharge))
    as (_ & Hret & _ & Hwire).
  split; [exact Hret|]. apply Hwire; discharge.
Defined.

(** The failed probe is cached: 29 seconds later the owner has come online,
    and the check still answers false without asking. *)
Lemma probe_failure_is_cached_witness :
  let failing :=
    sample_client (Raise (RPCError "Connection reset by peer")) (Return tt) in
  let online :=
    sample_client (Return [MkUser false UserStatusOnline]) (Return tt) in
  let w1 := (@check_admin_online_status sample_config failing
               (sample_world sample_instant ∅)).2 in
  let r2 := @check_admin_online_status sample_config online
              (set_clock (clock w1 + seconds 29) w1) in
  r2.1 = Return false /\ wire r2.2 = wire w1.
Proof.
  intros failing online w1 r2.
  destruct (@probe_failure_is_cached sample_config failing online
              (sample_world sample_instant ∅)
              (set_clock (clock w1 + seconds 29) w1)
              (RPCError "Connection reset by peer")
              ltac:(discharge) ltac:(discharge))
    as (_ & _ & Hlater).
  destruct (Hlater ltac:(vm_compute; reflexivity) ltac:(vm_compute; reflexivity))
    as (Hret & Hwire & _).
  split; [exact Hret | exact Hwire].
Defined.

(** A corrupt log with nothing in the way of the copy: the empty log, and
    the backup beside the original. *)
Lemma corrupt_log_recovery_witness :
  let w :=
    sample_world sample_instant {[ "responses_log.json" := Garbled "{oops" ]} in
  let r := @ResponseManager.load_log sample_config w in
  r.1 = Return ∅ /\
  disk r.2 !! "responses_log.json.corrupted_1700000000.bak"
    = Some (Garbled "{oops") /\
  disk r.2 !! "responses_log.json" = Some (Garbled "{oops").
Proof.
  intros w r.
  destruct (@corrupt_log_recovery sample_config w "{oops"
              ltac:(discharge) ltac:(discharge)) as [Hret Hcase].
  hnf in Hcase. destruct Hcase as [Hdisk _].
  split; [exact Hret|]. fold r in Hdisk. rewrite Hdisk. split; discharge.
Defined.

(** Stored values of the three accepted kinds and a malformed one, read ten
    minutes after the instant the first three stand for. *)
Lemma timestamp_parsing_tolerance_witness :
  let log : gmap string value :=
    {[ "1" := VNum sample_instant;
       "2" := VStr "2023-11-14T22:13:20";
       "3" := VStr "2023-11-15T00:13:20+02:00";
       "4" := VStr "yesterday" ]} in
  let w :=
    sample_world (sample_instant + seconds 600)
      {[ "responses_log.json" := Json log ]} in
  @stored_instant Iso8601.codec (VNum sample_instant) = sample_instant /\
  @stored_instant Iso8601.codec (VStr "2023-11-14T22:13:20") = sample_instant /\
  @stored_instant Iso8601.codec (VStr "2023-11-15T00:13:20+02:00")
    = sample_instant /\
  (@ResponseManager.should_reply sample_config Iso8601.codec "3" w).1
    = Return true /\
  (@ResponseManager.should_reply sample_config Iso8601.codec "4" w).1
    = Return true.
Proof.
  intros log w.
  pose proof (fun c v =>
                @timestamp_parsing_tolerance sample_config Iso8601.codec c v
                  w w log ltac:(discharge)) as H.
  destruct (H "1" (VNum sample_instant) ltac:(discharge)
              ltac:(vm_compute; reflexivity)) as [_ H1].
  destruct (H "2" (VStr "2023-11-14T22:13:20") ltac:(discharge)
              ltac:(vm_compute; exact I)) as [_ H2].
  destruct (H "3" (VStr "2023-11-15T00:13:20+02:00") ltac:(discharge)
              ltac:(vm_compute; right; split; discriminate))
    as [H3 H3'].
  destruct (H "4" (VStr "yesterday") ltac:(discharge)
              ltac:(vm_compute; exact I)) as [_ (_ & _ & H4)].
  split; [exact H1|]. split; [exact H2|]. split; [exact H3'|].
  split; [rewrite H3; discharge | apply H4; discharge].
Defined.

(** The typing request is refused with a flood wait of 30 seconds: the
    engine sleeps 30 seconds, sends nothing and writes nothing. *)
Lemma failed_send_atomicity_witness :
  let event :=
    sample_event
      (sample_client (Return [MkUser false UserStatusOnline])
                     (Raise (FloodWaitError 30)))
      (Return tt) in
  let w := sample_world sample_instant ∅ in
  let r := @process_message sample_config Iso8601.codec event w in
  r.1 = Return tt /\
  disk r.2 !! "responses_log.json" = None /\
  last (wire r.2) = Some (Sleep 30).
Proof.
  intros event w r.
  destruct (proj2 (@failed_send_atomicity sample_config Iso8601.codec event)
              (MkUser false UserStatusRecently) w (FloodWaitError 30) 42
              ltac:(discharge) ltac:(discharge) ltac:(discharge)
              ltac:(discharge) ltac:(discharge)
              ltac:(left; discharge))
    as (Hret & Hfile & _ & Hsleep).
  split; [exact Hret|]. split; [|exact Hsleep].
  transitivity (disk w !! "responses_log.json"); [exact Hfile | discharge].
Defined.

(** * More properties of the program *)

Section More.
Context `{Config} `{IsoFormat}.

(** ** The cooldown log store *)

Lemma load_log_keeps_other_files (w : world) (path : string) :
  path <> backup_name w ->
  disk (ResponseManager.load_log w).2 !! path = disk w !! path.
Proof.
  intros Hne.
  destruct (disk w !! RESPONSES_FILE) as [c|] eqn:Hd.
  - destruct (next_fault (read_faults w)).1 eqn:Hf.
    + rewrite (load_log_unreadable w c Hd Hf). destruct w; reflexivity.
    + destruct c as [log|raw|].
      * rewrite (load_log_json w log Hd Hf). destruct w; reflexivity.
      * rewrite (load_log_garbled w raw Hd Hf). cbn.
        destruct (next_fault (copy_faults w)).1 as [| |remains];
          [|destruct w; reflexivity|];
          destruct w; cbn in *; apply lookup_insert_ne; congruence.
      * rewrite (load_log_undecodable w Hd Hf). destruct w; reflexivity.
  - rewrite (load_log_absent w Hd). reflexivity.
Qed.

(** X1. [load_log] never rewrites the log file: whatever it finds, the file
    holds afterwards what it held before (a corrupt log stays on disk, and
    corrupt, until [save_log] writes), and the only path it may create or
    overwrite is that of the backup. *)
Theorem load_log_leaves_log_file (w : world) :
  disk (ResponseManager.load_log w).2 !! RESPONSES_FILE
    = disk w !! RESPONSES_FILE /\
  (forall path, path <> backup_name w ->
                disk (ResponseManager.load_log w).2 !! path = disk w !! path).
Proof.
  split.
  - apply load_log_keeps_log_file.
  - apply load_log_keeps_other_files.
Qed.

Lemma load_log_when_readable (w : world) :
  disk w !! RESPONSES_FILE <> Some Undecodable ->
  disk w !! RESPONSES_FILE = None \/ (next_fault (read_faults w)).1 = false ->
  exists w0,
    ResponseManager.load_log w = (Return (persisted_log w), w0) /\
    clock w0 = clock w /\ write_faults w0 = write_faults w /\
    wire w0 = wire w /\ status_cache w0 = status_cache w.
Proof.
  intros Hu Hr. unfold persisted_log.
  destruct (disk w !! RESPONSES_FILE) as [c|] eqn:Hd.
  - destruct Hr as [Hr|Hf]; [discriminate|].
    destruct c as [log|raw|]; [| |congruence].
    + rewrite (load_log_json w log Hd Hf). eexists. split; [reflexivity|].
      destruct w; cbn; auto.
    + rewrite (load_log_garbled w raw Hd Hf). eexists. split; [reflexivity|].
      destruct w as [t sc d rf cf wf j wi]; cbn.
      destruct (next_fault cf).1 as [| |remains]; cbn; auto.
  - rewrite (load_log_absent w Hd). eauto 6.
Qed.

(** What [save_log] does once the log is loaded. *)
Lemma save_log_after_load (c : string) (w w0 : world) log :
  ResponseManager.load_log w = (Return log, w0) ->
  ResponseManager.save_log c w =
    match (next_fault (write_faults w0)).1 with
    | Refused =>
        (Return tt,
         set_journal
           (journal w0 ++
              [(ERROR, "Failed to save log file: " +:+ "Permission denied")])
           (set_write_faults (next_fault (write_faults w0)).2 w0))
    | Broken remains =>
        (Return tt,
         set_journal
           (journal w0 ++
              [(ERROR, "Failed to save log file: "
                         +:+ "No space left on device")])
           (set_disk (<[RESPONSES_FILE := remains]> (disk w0))
              (set_write_faults (next_fault (write_faults w0)).2 w0)))
    | NoFault =>
        (Return tt,
         set_disk
           (<[RESPONSES_FILE :=
                Json (<[c := VStr (isoformat (utc_datetime (clock w0)))]> log)]>
              (disk w0))
           (set_write_faults (next_fault (write_faults w0)).2 w0))
    end.
Proof.
  intros Hl. unfold ResponseManager.save_log.
  rewrite (bind_return _ _ _ _ _ Hl). run.
  unfold utc_datetime, timezone.utc. rewrite Z.add_0_r.
  destruct (next_fault (write_faults w0)) as [[| |remains] rest]; reflexivity.
Qed.

(** X2. [save_log] heals a corrupt log: when the file on disk is not JSON
    and can be read and written, [save_log c] returns and the file is then
    a log with the single entry of [c], at the current UTC instant. *)
Theorem save_log_heals_corrupt_log (c : string) (w : world) (raw : string) :
  disk w !! RESPONSES_FILE = Some (Garbled raw) ->
  (next_fault (read_faults w)).1 = false ->
  (next_fault (write_faults w)).1 = false ->
  let r := ResponseManager.save_log c w in
  r.1 = Return tt /\
  disk r.2 !! RESPONSES_FILE =
    Some (Json {[ c := VStr (isoformat (utc_datetime (clock w))) ]}).
Proof.
  intros Hd Hf Hw r. subst r.
  destruct (load_log_when_readable w) as (w0 & Hl & Hc & Hwf & _);
    [congruence | auto |].
  rewrite (save_log_after_load c w w0 _ Hl), Hwf, Hw, Hc.
  unfold persisted_log. rewrite Hd. cbn. split; [reflexivity|].
  destruct w0; cbn. rewrite insert_empty. apply lookup_insert_eq.
Qed.

(** X3. A write that fails is silent: when the log loads and the file
    cannot be opened for writing, [save_log] returns normally, logs one
    error, and the log file holds what it held before, so the reply just
    sent leaves no cooldown entry. *)
Theorem save_log_write_failure_is_silent (c : string) (w w0 : world) log :
  ResponseManager.load_log w = (Return log, w0) ->
  (next_fault (write_faults w)).1 = true ->
  let r := ResponseManager.save_log c w in
  r.1 = Return tt /\
  disk r.2 !! RESPONSES_FILE = disk w !! RESPONSES_FILE /\
  persisted_log r.2 = persisted_log w /\
  journal r.2 =
    journal w0 ++ [(ERROR, "Failed to save log file: Permission denied")].
Proof.
  intros Hl Hw r. subst r.
  pose proof (load_log_keeps_write_faults w) as Hwf.
  pose proof (load_log_keeps_log_file w) as Hfile.
  rewrite Hl in Hwf, Hfile. cbn in Hwf, Hfile.
  rewrite (save_log_after_load c w w0 log Hl), Hwf, Hw. cbn.
  assert (Hd : disk
                 (set_journal
                    (journal w0 ++
                       [(ERROR, "Failed to save log file: "
                                  +:+ "Permission denied")])
                    (set_write_faults (next_fault (write_faults w)).2 w0))
                 !! RESPONSES_FILE = disk w !! RESPONSES_FILE)
    by (destruct w0; exact Hfile).
  split; [reflexivity|]. split; [exact Hd|]. split.
  - unfold persisted_log. rewrite Hd. reflexivity.
  - destruct w0; reflexivity.
Qed.

(** X4. [save_log] never writes a log it could not read: when [load_log]
    raises, [save_log] raises the same exception from the same world, with
    no file changed and no write attempted. *)
Theorem save_log_stops_on_load_failure (c : string) (w w0 : world) (e : exn) :
  ResponseManager.load_log w = (Raise e, w0) ->
  ResponseManager.save_log c w = (Raise e, w0) /\
  disk w0 = disk w /\
  write_faults w0 = write_faults w.
Proof.
  intros Hl. split.
  - unfold ResponseManager.save_log. apply bind_raise. exact Hl.
  - pose proof (load_log_keeps_write_faults w) as Hwf. rewrite Hl in Hwf.
    split; [eapply load_log_raises; eauto | exact Hwf].
Qed.

(** X5. [should_reply] only reads: it sends nothing, leaves the clock and
    the cache alone, attempts no write and does not change the log file. *)
Theorem should_reply_only_reads (c : string) (w : world) :
  let r := ResponseManager.should_reply c w in
  wire r.2 = wire w /\
  clock r.2 = clock w /\
  status_cache r.2 = status_cache w /\
  disk r.2 !! RESPONSES_FILE = disk w !! RESPONSES_FILE.
Proof.
  cbn. split; [apply should_reply_keeps_wire|].
  split; [apply should_reply_keeps_clock|].
  split; [apply should_reply_keeps_cache|].
  apply should_reply_keeps_log_file.
Qed.

(** X6. Eligibility does not lapse: with the same log file and the same
    read faults to come, a correspondent whom [should_reply] accepts at
    one clock is accepted at every later clock. *)
Theorem should_reply_stays_true (c : string) (wa wb : world) :
  disk wa !! RESPONSES_FILE = disk wb !! RESPONSES_FILE ->
  read_faults wa = read_faults wb ->
  clock wa <= clock wb ->
  (ResponseManager.should_reply c wa).1 = Return true ->
  (ResponseManager.should_reply c wb).1 = Return true.
Proof.
  intros Hd Hr Hle. rewrite !should_reply_value.
  rewrite (load_log_value_depends wa wb Hd Hr).
  destruct (ResponseManager.load_log wb).1 as [log|e]; [|auto].
  destruct (log !! c) as [v|]; [|auto].
  destruct (conversion v) as [stamp|e]; [|auto].
  intros [= Ha]. f_equal.
  rewrite Z.geb_leb in *. apply Z.leb_le in Ha. apply Z.leb_le. lia.
Qed.

(** ** The reachability cache and check *)

(** X7. A cache just constructed holds [False] stamped at the epoch: [get]
    misses as soon as the clock reads [ttl] or more, and on a clock below
    [ttl] it answers [False] although nothing was ever probed. *)
Theorem fresh_cache_get (ttl0 : Z) (w : world) :
  status_cache w = AdminStatusCache.__init__ ttl0 ->
  (AdminStatusCache.get w).1 =
    Return (if clock w <? seconds ttl0 then Some false else None).
Proof.
  intros Hc. run. rewrite Hc. cbn. rewrite Z.sub_0_r.
  destruct (clock w <? seconds ttl0); reflexivity.
Qed.

(** X8. [get] only reads: a hit does not refresh the stamp and a miss does
    not evict the entry, so a read at any instant changes no later read. *)
Theorem get_only_reads (w : world) (t : Z) :
  let r := AdminStatusCache.get w in
  status_cache r.2 = status_cache w /\
  clock r.2 = clock w /\ disk r.2 = disk w /\ wire r.2 = wire w /\
  (AdminStatusCache.get (set_clock t r.2)).1
    = (AdminStatusCache.get (set_clock t w)).1.
Proof.
  destruct w as [c sc d rf cf wf j wi]. run.
  destruct (c - cache_timestamp sc <? seconds (ttl sc)); cbn;
    repeat split; destruct (t - cache_timestamp sc <? seconds (ttl sc));
    reflexivity.
Qed.

Lemma classify_run (s : UserStatus) (w : world) :
  exists msg,
    classify s w =
      (Return (reachable_at s (clock w)),
       set_journal (journal w ++ [(INFO, msg)]) w).
Proof.
  destruct s as [| |[t|]|n]; cbn; eauto. run.
  unfold datetime.sub_total_seconds, datetime.timestamp,
    datetime.utcoffset, timezone.utc. cbn.
  replace (clock w + 0 - 0 - (wall t - 0)) with (clock w - wall t) by lia.
  destruct (clock w - wall t <=? seconds ONLINE_THRESHOLD_SEC); eauto.
Qed.

Lemma check_probe_answers (cl : Client) (w : world) (u : User)
    (others : list User) :
  cache_miss w ->
  answer_GetUsersRequest cl = Return (u :: others) ->
  let now := clock w + latency_GetUsersRequest cl in
  exists msg,
    check_admin_online_status cl w =
      (Return (reachable_at (status u) now),
       World now
             (MkStatusCache (ttl (status_cache w))
                            (reachable_at (status u) now) now)
             (disk w) (read_faults w) (copy_faults w) (write_faults w)
             (journal w ++
                [(DEBUG, "Admin status cache expired. Performing live check.");
                 (INFO, msg)])
             (wire w ++ [GetUsersRequest [ADMIN_ID_TO_CHECK]])).
Proof.
  unfold cache_miss. intros Hmiss Hans.
  assert (Hge : (clock w - cache_timestamp (status_cache w)
                 <? seconds (ttl (status_cache w))) = false)
    by (apply Z.ltb_ge; lia).
  unfold check_admin_online_status. run. rewrite Hge. run. rewrite Hans. cbn.
  match goal with
  | |- context [classify ?s ?w0] =>
      destruct (classify_run s w0) as [msg ->]
  end.
  exists msg. destruct w; cbn. rewrite <- app_assoc. reflexivity.
Qed.

Lemma check_probe_empty (cl : Client) (w : world) :
  cache_miss w ->
  answer_GetUsersRequest cl = Return [] ->
  let now := clock w + latency_GetUsersRequest cl in
  check_admin_online_status cl w =
    (Return false,
     World now (MkStatusCache (ttl (status_cache w)) false now)
           (disk w) (read_faults w) (copy_faults w) (write_faults w)
           (journal w ++
              [(DEBUG, "Admin status cache expired. Performing live check.");
               (ERROR, "Error checking admin status: "
                         +:+ "list index out of range"
                         +:+ ". Falling back to default/cached status (False).")])
           (wire w ++ [GetUsersRequest [ADMIN_ID_TO_CHECK]])).
Proof.
  unfold cache_miss. intros Hmiss Hans.
  assert (Hge : (clock w - cache_timestamp (status_cache w)
                 <? seconds (ttl (status_cache w))) = false)
    by (apply Z.ltb_ge; lia).
  unfold check_admin_online_status. run. rewrite Hge. run. rewrite Hans.
  destruct w; cbn. rewrite <- app_assoc. reflexivity.
Qed.

(** On a miss the check asks once, answers, and caches its answer stamped
    with the clock it ends at. *)
Lemma check_miss_run (cl : Client) (w : world) :
  cache_miss w ->
  exists b w',
    check_admin_online_status cl w = (Return b, w') /\
    status_cache w' = MkStatusCache (ttl (status_cache w)) b (clock w') /\
    clock w' = clock w + latency_GetUsersRequest cl /\
    wire w' = wire w ++ [GetUsersRequest [ADMIN_ID_TO_CHECK]].
Proof.
  intros Hmiss.
  destruct (answer_GetUsersRequest cl) as [[|u others]|e] eqn:Hans.
  - rewrite (check_probe_empty cl w Hmiss Hans). eauto 10.
  - destruct (check_probe_answers cl w u others Hmiss Hans) as [msg ->].
    eauto 10.
  - rewrite (check_probe_raises cl w e Hmiss Hans). eauto 10.
Qed.

(** X9. On a cache miss with a probe that answers, the check classifies
    the status of the first user returned at the clock the answer arrives,
    returns that, and caches it stamped with that clock; one request went
    out and no file changed. *)
Theorem check_live_probe (cl : Client) (w : world) (u : User)
    (others : list User) :
  cache_miss w ->
  answer_GetUsersRequest cl = Return (u :: others) ->
  let r := check_admin_online_status cl w in
  let now := clock w + latency_GetUsersRequest cl in
  r.1 = Return (reachable_at (status u) now) /\
  status_cache r.2 =
    MkStatusCache (ttl (status_cache w)) (reachable_at (status u) now) now /\
  clock r.2 = now /\
  wire r.2 = wire w ++ [GetUsersRequest [ADMIN_ID_TO_CHECK]] /\
  disk r.2 = disk w.
Proof.
  intros Hmiss Hans r now. subst r now.
  destruct (check_probe_answers cl w u others Hmiss Hans) as [msg ->].
  cbn. auto.
Qed.

(** X10. A probe that answers with no user at all is a failed probe: the
    [IndexError] of [user_list[0]] is caught, the check answers [False],
    logs the error and caches [False]. *)
Theorem check_empty_user_list (cl : Client) (w : world) :
  cache_miss w ->
  answer_GetUsersRequest cl = Return [] ->
  let r := check_admin_online_status cl w in
  r.1 = Return false /\
  cache_is_online (status_cache r.2) = false /\
  cache_timestamp (status_cache r.2) = clock r.2 /\
  last (journal r.2) =
    Some (ERROR, "Error checking admin status: list index out of range"
                   +:+ ". Falling back to default/cached status (False).").
Proof.
  intros Hmiss Hans r. subst r.
  rewrite (check_probe_empty cl w Hmiss Hans). cbn.
  repeat split; try reflexivity.
  rewrite last_app. reflexivity.
Qed.

(** X11. Whatever a live check answered, the same answer is given again,
    from the cache and without any request, by every check made while the
    clock is within [ttl] of the end of the live check. *)
Theorem check_answer_is_reused (cl cl2 : Client) (w w2 : world) :
  cache_miss w ->
  status_cache w2 = status_cache (check_admin_online_status cl w).2 ->
  clock w2 - clock (check_admin_online_status cl w).2
    < seconds (ttl (status_cache w)) ->
  let r2 := check_admin_online_status cl2 w2 in
  r2.1 = (check_admin_online_status cl w).1 /\
  wire r2.2 = wire w2 /\
  status_cache r2.2 = status_cache w2.
Proof.
  intros Hmiss.
  destruct (check_miss_run cl w Hmiss) as (b & w' & -> & Hsc & _).
  cbn. intros Hsc2 Hlt.
  rewrite (check_cache_hit cl2 w2) by (rewrite Hsc2, Hsc; cbn; exact Hlt).
  split; [cbn; rewrite Hsc2, Hsc; reflexivity|].
  destruct w2; cbn. auto.
Qed.

Lemma check_keeps_read_faults cl : keeps read_faults (check_admin_online_status cl).
Proof.
  unfold check_admin_online_status, AdminStatusCache.get,
    AdminStatusCache.set, classify. keeps_tac.
Qed.

Lemma check_keeps_write_faults cl :
  keeps write_faults (check_admin_online_status cl).
Proof.
  unfold check_admin_online_status, AdminStatusCache.get,
    AdminStatusCache.set, classify. keeps_tac.
Qed.

(** X12. The check never raises, whatever the transport answers (a flood
    wait included), and it never touches the files. *)
Theorem check_never_raises (cl : Client) (w : world) :
  let r := check_admin_online_status cl w in
  (exists b, r.1 = Return b) /\ disk r.2 = disk w.
Proof.
  split; [apply check_returns | apply check_keeps_disk].
Qed.

(** ** The decision engine *)

(** X13. Events that are filtered leave no trace: for an outgoing message,
    a chat that is not a user, or a bot, [process_message] returns with the
    world untouched; the log file is not even read. *)
Theorem filtered_events_leave_no_trace (event : Event) (w : world) :
  out event = true \/
  (exists u, get_chat event = Return (IsUser u) /\ bot u = true) \/
  get_chat event = Return IsChat \/
  get_chat event = Return IsChannel ->
  process_message event w = (Return tt, w).
Proof.
  unfold process_message.
  intros [Hout | Hchat]; [rewrite Hout; reflexivity|].
  destruct (out event); [reflexivity|].
  destruct Hchat as [(u & -> & Hbot) | [-> | ->]]; cbn; rewrite ?Hbot;
    reflexivity.
Qed.

Lemma process_message_at_throttle (event : Event) (u : User) (w : world) :
  out event = false ->
  get_chat event = Return (IsUser u) ->
  bot u = false ->
  process_message event w =
    bind (ResponseManager.should_reply (str (sender_id event)))
      (fun should =>
         if negb should then ret tt
         else
           logger.info
             ("📨 Входящее/Редактирование от " +:+ str (sender_id event)
                +:+ ". Обработка...") ;;;
           try_except
             (process_message_body event (str (sender_id event)))
             process_message_except) w.
Proof.
  intros Hout Hchat Hbot. unfold process_message.
  rewrite Hout, Hchat. unfold lift, bind at 1. rewrite Hbot. reflexivity.
Qed.

(** X14. A log that cannot be loaded stops the event at the throttle
    check: the exception of [load_log] leaves [process_message], which has
    sent nothing and changed no file. *)
Theorem load_failure_stops_event (event : Event) (u : User) (w w0 : world)
    (e : exn) :
  out event = false ->
  get_chat event = Return (IsUser u) ->
  bot u = false ->
  ResponseManager.load_log w = (Raise e, w0) ->
  process_message event w = (Raise e, w0) /\
  wire w0 = wire w /\ disk w0 = disk w.
Proof.
  intros Hout Hchat Hbot Hl.
  rewrite (process_message_at_throttle event u w Hout Hchat Hbot).
  unfold ResponseManager.should_reply.
  rewrite (bind_raise _ _ _ _ _ (bind_raise _ _ _ _ _ Hl)).
  split; [reflexivity|].
  pose proof (load_log_keeps_wire w) as Hw. rewrite Hl in Hw.
  split; [exact Hw | eapply load_log_raises; eauto].
Qed.

Lemma should_reply_false_keeps_disk (c : string) (w : world) :
  (ResponseManager.should_reply c w).1 = Return false ->
  disk (ResponseManager.should_reply c w).2 = disk w.
Proof.
  destruct (ResponseManager.load_log w) as [[log|e] w0] eqn:Hl.
  - rewrite (should_reply_run c w w0 log Hl).
    destruct (log !! c) as [v|] eqn:Hv; [|discriminate].
    intros _. cbn. rewrite convert_to_timestamp_run. cbn.
    assert (Hd : disk w0 = disk w).
    { pose proof (load_log_returns w log w0 Hl) as Hp.
      unfold persisted_log in Hp.
      destruct (disk w !! RESPONSES_FILE) as [[l|raw|]|] eqn:Hd;
        try (subst log; rewrite lookup_empty in Hv; discriminate).
      destruct (next_fault (read_faults w)).1 eqn:Hf.
      - rewrite (load_log_unreadable w _ Hd Hf) in Hl. discriminate.
      - rewrite (load_log_json w l Hd Hf) in Hl.
        injection Hl as _ <-. destruct w; reflexivity. }
    rewrite <- Hd.
    destruct v as [x|s]; [|destruct (fromisoformat s)]; destruct w0;
      reflexivity.
  - unfold ResponseManager.should_reply.
    rewrite (bind_raise _ _ _ _ _ Hl). discriminate.
Qed.

Lemma process_message_throttled (event : Event) (u : User) (w : world) :
  out event = false ->
  get_chat event = Return (IsUser u) ->
  bot u = false ->
  (ResponseManager.should_reply (str (sender_id event)) w).1 = Return false ->
  let r := process_message event w in
  r.1 = Return tt /\
  wire r.2 = wire w /\ disk r.2 = disk w /\
  clock r.2 = clock w /\ status_cache r.2 = status_cache w.
Proof.
  intros Hout Hchat Hbot Hshould r. subst r.
  assert (Hrun : process_message event w =
                 (Return tt,
                  (ResponseManager.should_reply (str (sender_id event)) w).2)).
  { rewrite (process_message_at_throttle event u w Hout Hchat Hbot).
    unfold bind at 1.
    destruct (ResponseManager.should_reply (str (sender_id event)) w)
      as [res w0]. cbn in *. subst res. reflexivity. }
  rewrite Hrun. cbn.
  split; [reflexivity|].
  split; [apply should_reply_keeps_wire|].
  split; [apply should_reply_false_keeps_disk; exact Hshould|].
  split; [apply should_reply_keeps_clock | apply should_reply_keeps_cache].
Qed.

(** X15. A throttled event has no effect: when [should_reply] answers
    false, [process_message] returns having sent nothing, with the clock,
    the cache and every file as they were. *)
Theorem throttled_event_has_no_effect (event : Event) (u : User) (w : world) :
  out event = false ->
  get_chat event = Return (IsUser u) ->
  bot u = false ->
  (ResponseManager.should_reply (str (sender_id event)) w).1 = Return false ->
  let r := process_message event w in
  r.1 = Return tt /\
  wire r.2 = wire w /\ disk r.2 = disk w /\
  clock r.2 = clock w /\ status_cache r.2 = status_cache w.
Proof. exact (process_message_throttled event u w). Qed.

Lemma save_log_keeps_clock c : keeps clock (ResponseManager.save_log c).
Proof.
  unfold ResponseManager.save_log, ResponseManager.load_log,
    ResponseManager.sync_load. keeps_tac.
Qed.

Lemma save_log_keeps_cache c : keeps status_cache (ResponseManager.save_log c).
Proof.
  unfold ResponseManager.save_log, ResponseManager.load_log,
    ResponseManager.sync_load. keeps_tac.
Qed.

Lemma should_reply_keeps_write_faults c :
  keeps write_faults (ResponseManager.should_reply c).
Proof.
  unfold ResponseManager.should_reply, ResponseManager._convert_to_timestamp,
    ResponseManager.load_log, ResponseManager.sync_load. keeps_tac.
Qed.

(** The check in one statement: its answer is what the cache holds
    afterwards, it asks at most once, and only on a miss. *)
Lemma check_summary (cl : Client) (w : world) :
  exists b w1 probe,
    check_admin_online_status cl w = (Return b, w1) /\
    cache_is_online (status_cache w1) = b /\
    wire w1 = wire w ++ probe /\
    (probe = [] \/ probe = [GetUsersRequest [ADMIN_ID_TO_CHECK]]) /\
    (cache_hit w ->
     probe = [] /\ clock w1 = clock w /\ status_cache w1 = status_cache w) /\
    (cache_miss w ->
     probe = [GetUsersRequest [ADMIN_ID_TO_CHECK]] /\
     clock w1 = clock w + latency_GetUsersRequest cl) /\
    disk w1 = disk w /\ read_faults w1 = read_faults w /\
    write_faults w1 = write_faults w.
Proof.
  pose proof (check_keeps_disk cl w) as Hd.
  pose proof (check_keeps_read_faults cl w) as Hr.
  pose proof (check_keeps_write_faults cl w) as Hwf.
  destruct (Z_lt_ge_dec (clock w - cache_timestamp (status_cache w))
                        (seconds (ttl (status_cache w)))) as [Hhit|Hmiss].
  - rewrite (check_cache_hit cl w Hhit) in *. cbn in *.
    eexists _, _, [].
    split; [reflexivity|]. unfold cache_hit, cache_miss.
    destruct w; cbn in *. rewrite app_nil_r.
    repeat split; auto; lia.
  - destruct (check_miss_run cl w Hmiss) as (b & w1 & Hrun & Hsc & Hc & Hw).
    rewrite Hrun in *. cbn in *.
    exists b, w1, [GetUsersRequest [ADMIN_ID_TO_CHECK]].
    split; [reflexivity|]. unfold cache_hit, cache_miss.
    rewrite Hsc. cbn. repeat split; auto; lia.
Qed.

(** The [try] block up to the reply, when typing and send succeed. *)
Lemma body_until_sent (event : Event) (sender : string) (wa w1 : world)
    (b : bool) (peer : Z) :
  get_input_chat event = Return peer ->
  check_admin_online_status (client event) wa = (Return b, w1) ->
  answer_SetTypingRequest (client event) = Return tt ->
  answer_reply event = Return tt ->
  exists w5,
    process_message_body event sender wa =
      bind (ResponseManager.save_log sender)
           (fun _ => logger.info
                       ("✅ [ОТВЕТ] Клиенту " +:+ sender +:+ " отправлен."))
           w5 /\
    wire w5 =
      wire w1 ++ [SetTypingRequest peer; Sleep TYPING_DELAY_SEC;
                  Reply (response_text b)] /\
    clock w5 = clock w1 + seconds TYPING_DELAY_SEC /\
    status_cache w5 = status_cache w1 /\
    disk w5 = disk w1 /\ read_faults w5 = read_faults w1 /\
    write_faults w5 = write_faults w1.
Proof.
  intros Hpeer Hcheck Htyping Hreply.
  unfold process_message_body.
  unfold lift, bind at 1. rewrite Hpeer.
  unfold bind at 1. rewrite Hcheck.
  destruct w1 as [t sc d rf cf wf j wi].
  destruct b; run_engine; rewrite Htyping; run_engine; rewrite Hreply;
    run_engine; (eexists; split; [reflexivity|]); cbn;
    rewrite <- !app_assoc, !Z.add_0_r; cbn; auto 10.
Qed.

(** The end of the [try] statement: saving, and absorbing what saving
    raises. *)
Lemma try_end_run (sender : string) (msg : string) (w5 : world) :
  let r :=
    match bind (ResponseManager.save_log sender)
               (fun _ => logger.info msg) w5 with
    | (Return a, w') => (Return a, w')
    | (Raise e, w') => process_message_except e w'
    end in
  r.1 = Return tt /\
  wire r.2 = wire w5 /\ clock r.2 = clock w5 /\
  status_cache r.2 = status_cache w5 /\
  disk r.2 = disk (ResponseManager.save_log sender w5).2.
Proof.
  pose proof (save_log_keeps_wire sender w5) as Hw.
  pose proof (save_log_keeps_clock sender w5) as Hc.
  pose proof (save_log_keeps_cache sender w5) as Hsc.
  pose proof (save_log_raises sender w5) as Hraise.
  unfold bind.
  destruct (ResponseManager.save_log sender w5) as [[[]|e] w6];
    cbn in Hw, Hc, Hsc |- *.
  - destruct w6; cbn in *. auto.
  - rewrite process_message_except_run.
    destruct (Hraise e w6 eq_refl) as [_ [[m ->]|[m ->]]];
      destruct w6; cbn in *; auto.
Qed.

Lemma should_reply_returns_readable (c : string) (w : world) (b : bool) :
  (ResponseManager.should_reply c w).1 = Return b ->
  disk w !! RESPONSES_FILE <> Some Undecodable.
Proof.
  rewrite should_reply_value. intros Hs Hd.
  destruct (next_fault (read_faults w)).1 eqn:Hf.
  - rewrite (load_log_unreadable w _ Hd Hf) in Hs. discriminate.
  - rewrite (load_log_undecodable w Hd Hf) in Hs. discriminate.
Qed.

(** The whole of [process_message] when the event passes the filters and
    the throttle and the transport refuses nothing. *)
Lemma process_message_sent (event : Event) (u : User) (w : world) (peer : Z) :
  out event = false ->
  get_chat event = Return (IsUser u) ->
  bot u = false ->
  (ResponseManager.should_reply (str (sender_id event)) w).1 = Return true ->
  get_input_chat event = Return peer ->
  answer_SetTypingRequest (client event) = Return tt ->
  answer_reply event = Return tt ->
  let sender := str (sender_id event) in
  let r := process_message event w in
  let b := cache_is_online (status_cache r.2) in
  exists probe,
    r.1 = Return tt /\
    wire r.2 =
      wire w ++ probe ++ [SetTypingRequest peer; Sleep TYPING_DELAY_SEC;
                          Reply (response_text b)] /\
    (cache_hit w ->
     probe = [] /\ status_cache r.2 = status_cache w /\
     clock r.2 = clock w + seconds TYPING_DELAY_SEC) /\
    (cache_miss w ->
     probe = [GetUsersRequest [ADMIN_ID_TO_CHECK]] /\
     clock r.2 = clock w + latency_GetUsersRequest (client event)
                 + seconds TYPING_DELAY_SEC) /\
    (disk w !! RESPONSES_FILE = None \/
     (next_fault (read_faults (ResponseManager.should_reply sender w).2)).1
       = false ->
     (next_fault (write_faults w)).1 = false ->
     disk r.2 !! RESPONSES_FILE =
       Some (Json (<[sender := VStr (isoformat (utc_datetime (clock r.2)))]>
                     (persisted_log w)))).
Proof.
  intros Hout Hchat Hbot Hshould Hpeer Htyping Hreply sender r b.
  subst b. subst r. subst sender.
  remember (process_message event w) as r eqn:Hrun.
  set (sender := str (sender_id event)) in *.
  pose proof (should_reply_keeps_wire sender w) as Hw0.
  pose proof (should_reply_keeps_clock sender w) as Hc0.
  pose proof (should_reply_keeps_cache sender w) as Hsc0.
  pose proof (should_reply_keeps_write_faults sender w) as Hwf0.
  pose proof (should_reply_keeps_log_file sender w) as Hfile0.
  pose proof (should_reply_returns_readable sender w true Hshould) as Hread.
  rewrite (process_message_at_throttle event u w Hout Hchat Hbot) in Hrun.
  fold sender in Hrun. unfold bind at 1 in Hrun.
  destruct (ResponseManager.should_reply sender w) as [res w0].
  cbn in Hshould, Hw0, Hc0, Hsc0, Hwf0, Hfile0 |- *. subst res.
  cbn in Hrun.
  match type of Hrun with
  | context [try_except _ _ ?wa] => set (wa0 := wa) in *
  end.
  assert (Hwa : wire wa0 = wire w /\ clock wa0 = clock w /\
                status_cache wa0 = status_cache w /\
                disk wa0 = disk w0 /\ read_faults wa0 = read_faults w0 /\
                write_faults wa0 = write_faults w)
    by (subst wa0; destruct w0; cbn in *; auto 10).
  destruct Hwa as (Hwa & Hca & Hsca & Hda & Hra & Hwfa).
  destruct (check_summary (client event) wa0)
    as (b & w1 & probe & Hcheck & Hb & Hw1 & _ & Hhit & Hmiss & Hd1 & Hr1
        & Hwf1).
  destruct (body_until_sent event sender wa0 w1 b peer Hpeer Hcheck Htyping
              Hreply)
    as (w5 & Hbody & Hw5 & Hc5 & Hsc5 & Hd5 & Hr5 & Hwf5).
  unfold try_except in Hrun. rewrite Hbody in Hrun.
  destruct (try_end_run sender
              ("✅ [ОТВЕТ] Клиенту " +:+ sender +:+ " отправлен.") w5)
    as (Hret & Hwr & Hcr & Hscr & Hdr).
  rewrite <- Hrun in Hret, Hwr, Hcr, Hscr, Hdr. clear Hrun.
  exists probe. rewrite Hscr, Hsc5, Hb, Hwr, Hw5, Hw1, Hwa, Hcr, Hc5.
  rewrite <- !app_assoc.
  split; [exact Hret|]. split; [reflexivity|].
  split; [|split].
  - intros Hh. destruct Hhit as (-> & Hc1 & Hsc1).
    { unfold cache_hit in *. rewrite Hca, Hsca. exact Hh. }
    rewrite Hc1, Hsc1, Hca, Hsca. auto.
  - intros Hm. destruct Hmiss as (-> & Hc1).
    { unfold cache_miss in *. rewrite Hca, Hsca. exact Hm. }
    rewrite Hc1, Hca. auto.
  - intros Hreadable Hwritable. rewrite Hdr.
    assert (Hfile5 : disk w5 !! RESPONSES_FILE = disk w !! RESPONSES_FILE)
      by (rewrite Hd5, Hd1, Hda; exact Hfile0).
    destruct (load_log_when_readable w5) as (w5' & Hl & Hc5' & Hwf5' & _).
    { rewrite Hfile5. exact Hread. }
    { rewrite Hfile5, Hr5, Hr1, Hra. exact Hreadable. }
    rewrite (save_log_after_load sender w5 w5' _ Hl).
    rewrite Hwf5', Hwf5, Hwf1, Hwfa, Hwritable, Hc5', Hc5.
    assert (Hp : persisted_log w5 = persisted_log w)
      by (unfold persisted_log; rewrite Hfile5; reflexivity).
    rewrite Hp. destruct w5'; cbn. apply lookup_insert_eq.
Qed.

(** X16. An event that passes the filters and the throttle, with a
    transport that refuses nothing: [process_message] returns; the wire
    gains the probe (on a cache miss only), the typing request, the typing
    delay and one reply, whose text is the online or offline variant
    according to what the cache holds afterwards; and when the log can be
    read and written, the log file is the log as persisted before with the
    entry of the sender set to the instant the function ends at, which is
    after the typing delay. *)
Theorem reply_sent_and_recorded (event : Event) (u : User) (w : world)
    (peer : Z) :
  out event = false ->
  get_chat event = Return (IsUser u) ->
  bot u = false ->
  (ResponseManager.should_reply (str (sender_id event)) w).1 = Return true ->
  get_input_chat event = Return peer ->
  answer_SetTypingRequest (client event) = Return tt ->
  answer_reply event = Return tt ->
  let sender := str (sender_id event) in
  let r := process_message event w in
  let b := cache_is_online (status_cache r.2) in
  exists probe,
    r.1 = Return tt /\
    wire r.2 =
      wire w ++ probe ++ [SetTypingRequest peer; Sleep TYPING_DELAY_SEC;
                          Reply (response_text b)] /\
    (cache_hit w ->
     probe = [] /\ status_cache r.2 = status_cache w /\
     clock r.2 = clock w + seconds TYPING_DELAY_SEC) /\
    (cache_miss w ->
     probe = [GetUsersRequest [ADMIN_ID_TO_CHECK]] /\
     clock r.2 = clock w + latency_GetUsersRequest (client event)
                 + seconds TYPING_DELAY_SEC) /\
    (disk w !! RESPONSES_FILE = None \/
     (next_fault (read_faults (ResponseManager.should_reply sender w).2)).1
       = false ->
     (next_fault (write_faults w)).1 = false ->
     disk r.2 !! RESPONSES_FILE =
       Some (Json (<[sender := VStr (isoformat (utc_datetime (clock r.2)))]>
                     (persisted_log w)))).
Proof. exact (process_message_sent event u w peer). Qed.

(** What the [try] block does to the wire and to the log file. *)
Lemma body_effects (event : Event) (sender : string) (wa : world) :
  let rb := process_message_body event sender wa in
  exists acts,
    wire rb.2 = wire wa ++ acts /\
    (length (List.filter is_reply acts) <= 1)%nat /\
    (disk rb.2 !! RESPONSES_FILE <> disk wa !! RESPONSES_FILE ->
     answer_reply event = Return tt /\
     exists text, In (Reply text) acts).
Proof.
  intros rb. subst rb.
  remember (process_message_body event sender wa) as rb eqn:Hrun.
  unfold process_message_body in Hrun. unfold lift, bind at 1 in Hrun.
  destruct (get_input_chat event) as [peer|e0].
  2:{ subst rb. exists []. cbn. rewrite app_nil_r. split; [reflexivity|].
      split; [lia | congruence]. }
  unfold bind at 1 in Hrun.
  destruct (check_summary (client event) wa)
    as (b & w1 & probe & Hcheck & _ & Hw1 & Hprobe & _ & _ & Hd1 & _).
  rewrite Hcheck in Hrun. rewrite <- Hd1. clear Hcheck.
  destruct w1 as [t sc d rf cf wf j wi]. cbn in Hw1. cbn [disk].
  assert (Hinfo : forall (k : string -> M unit),
             bind (if b
                   then logger.info "-> Статус: ОНЛАЙН." ;;;
                        ret RESPONSE_ONLINE_DYNAMIC
                   else logger.info "-> Статус: ОФФЛАЙН." ;;;
                        ret RESPONSE_OFFLINE_DYNAMIC) k
                  (World t sc d rf cf wf j wi)
             = k (if b then RESPONSE_ONLINE_DYNAMIC
                  else RESPONSE_OFFLINE_DYNAMIC)
                 (World t sc d rf cf wf
                    (j ++ [(INFO, if b then "-> Статус: ОНЛАЙН."
                                  else "-> Статус: ОФФЛАЙН.")]) wi))
    by (intros k; destruct b; reflexivity).
  rewrite Hinfo in Hrun. clear Hinfo.
  unfold bind at 1, call in Hrun. cbn in Hrun.
  destruct (answer_SetTypingRequest (client event)) as [[]|e1].
  2:{ subst rb. exists (probe ++ [SetTypingRequest peer]). cbn.
      rewrite Hw1, <- app_assoc. split; [reflexivity|].
      split; [|congruence].
      destruct Hprobe as [-> | ->]; cbn; lia. }
  cbn -[ResponseManager.save_log] in Hrun.
  destruct (answer_reply event) as [[]|e2].
  2:{ subst rb. cbn. eexists (probe ++ [_; _; _]).
      rewrite Hw1, <- !app_assoc. cbn. split; [reflexivity|].
      split; [|congruence].
      destruct Hprobe as [-> | ->]; cbn; lia. }
  match type of Hrun with
  | _ = bind ?m ?k ?w5 =>
      assert (Hwire : wire rb.2 = wire w5)
        by (rewrite Hrun;
            apply (keeps_bind wire m k);
            [apply save_log_keeps_wire | intros; keeps_tac])
  end.
  cbn in Hwire. eexists (probe ++ [_; _; _]).
  rewrite Hwire, Hw1, <- !app_assoc. cbn. split; [reflexivity|].
  split; [destruct Hprobe as [-> | ->]; cbn; lia|].
  intros _. split; [reflexivity|]. eexists. apply in_or_app. right.
  cbn. eauto.
Qed.

(** X17. One event, at most one reply, and no cooldown entry without it:
    [process_message] only adds to the wire, what it adds holds at most one
    reply, and it changes the log file only when the send succeeded. *)
Theorem one_reply_and_no_entry_without_it (event : Event) (w : world) :
  let r := process_message event w in
  exists acts,
    wire r.2 = wire w ++ acts /\
    (length (List.filter is_reply acts) <= 1)%nat /\
    (disk r.2 !! RESPONSES_FILE <> disk w !! RESPONSES_FILE ->
     answer_reply event = Return tt /\
     exists text, In (Reply text) acts).
Proof.
  intros r. subst r.
  assert (Hnone : forall w', wire w' = wire w ->
            disk w' !! RESPONSES_FILE = disk w !! RESPONSES_FILE ->
            exists acts,
              wire w' = wire w ++ acts /\
              (length (List.filter is_reply acts) <= 1)%nat /\
              (disk w' !! RESPONSES_FILE <> disk w !! RESPONSES_FILE ->
               answer_reply event = Return tt /\
               exists text, In (Reply text) acts)).
  { intros w' Hw Hd. exists []. rewrite app_nil_r. cbn.
    split; [exact Hw|]. split; [lia | congruence]. }
  remember (process_message event w) as r eqn:Hrun.
  unfold process_message in Hrun.
  destruct (out event); [subst r; apply Hnone; reflexivity|].
  unfold lift, bind at 1 in Hrun.
  destruct (get_chat event) as [[u| |]|e];
    try (subst r; apply Hnone; reflexivity).
  destruct (bot u); [subst r; apply Hnone; reflexivity|].
  set (sender := str (sender_id event)) in *.
  pose proof (should_reply_keeps_wire sender w) as Hw0.
  pose proof (should_reply_keeps_log_file sender w) as Hfile0.
  unfold bind at 1 in Hrun.
  destruct (ResponseManager.should_reply sender w) as [[[|]|e] w0];
    cbn in Hw0, Hfile0;
    try (subst r; apply Hnone; assumption).
  cbn in Hrun.
  match type of Hrun with
  | context [try_except _ _ ?wa] => remember wa as wa0 eqn:Hwa0
  end.
  assert (Hwa : wire wa0 = wire w /\
                disk wa0 !! RESPONSES_FILE = disk w !! RESPONSES_FILE)
    by (subst wa0; destruct w0; cbn in *; auto).
  destruct Hwa as [Hwa Hda]. clear Hwa0.
  destruct (body_effects event sender wa0) as (acts & Hwire & Hone & Hcause).
  unfold try_except in Hrun.
  destruct (process_message_body event sender wa0) as [[[]|e] wb];
    cbn in Hwire, Hcause.
  - subst r. cbn. exists acts. rewrite Hwire, Hwa, <- Hda. auto.
  - rewrite process_message_except_run in Hrun. subst r. cbn.
    destruct e as [m|m|m|m|m|m|secs|m|m];
      try (exists acts; destruct wb; cbn in *;
           rewrite Hwire, Hwa, <- Hda; solve [auto]).
    exists (acts ++ [Sleep secs]). destruct wb; cbn in *.
    rewrite Hwire, Hwa, <- Hda, <- app_assoc, List.filter_app, length_app.
    cbn. split; [reflexivity|]. split; [lia|].
    intros Hne. destruct (Hcause Hne) as [Hr [text Hin]].
    split; [exact Hr|]. exists text. apply in_or_app. auto.
Qed.

(** X18. Two messages, one reply: after an event answered and recorded,
    a second event of the same sender that arrives while the clock is less
    than one cooldown window past the end of the first is throttled, with
    nothing sent and nothing changed. *)
Theorem second_message_is_throttled (event event2 : Event) (u u2 : User)
    (w w2 : world) (peer : Z) :
  out event = false ->
  get_chat event = Return (IsUser u) ->
  bot u = false ->
  (ResponseManager.should_reply (str (sender_id event)) w).1 = Return true ->
  get_input_chat event = Return peer ->
  answer_SetTypingRequest (client event) = Return tt ->
  answer_reply event = Return tt ->
  disk w !! RESPONSES_FILE = None \/
  (next_fault
     (read_faults
        (ResponseManager.should_reply (str (sender_id event)) w).2)).1
    = false ->
  (next_fault (write_faults w)).1 = false ->
  let r := process_message event w in
  fromisoformat (isoformat (utc_datetime (clock r.2)))
    = Some (utc_datetime (clock r.2)) ->
  out event2 = false ->
  get_chat event2 = Return (IsUser u2) ->
  bot u2 = false ->
  sender_id event2 = sender_id event ->
  disk w2 !! RESPONSES_FILE = disk r.2 !! RESPONSES_FILE ->
  (next_fault (read_faults w2)).1 = false ->
  clock w2 - clock r.2 < seconds CONVERSATION_THRESHOLD_SEC ->
  let r2 := process_message event2 w2 in
  r2.1 = Return tt /\
  wire r2.2 = wire w2 /\ disk r2.2 = disk w2 /\
  status_cache r2.2 = status_cache w2.
Proof.
  intros Hout Hchat Hbot Hshould Hpeer Htyping Hreply Hreadable Hwritable r
    Hiso Hout2 Hchat2 Hbot2 Hsame Hd2 Hr2 Hlt r2.
  destruct (process_message_sent event u w peer Hout Hchat Hbot Hshould
              Hpeer Htyping Hreply) as (probe & _ & _ & _ & _ & Hsaved).
  specialize (Hsaved Hreadable Hwritable). fold r in Hsaved.
  rewrite <- Hd2 in Hsaved.
  assert (Hno : (ResponseManager.should_reply (str (sender_id event2)) w2).1
                = Return false).
  { rewrite (should_reply_run _ w2 _ _ (load_log_json w2 _ Hsaved Hr2)).
    rewrite Hsame, lookup_insert_eq. cbn. rewrite Hiso. cbn.
    unfold timezone.utc. f_equal. rewrite Z.geb_leb. apply Z.leb_gt. lia. }
  destruct (process_message_throttled event2 u2 w2 Hout2 Hchat2 Hbot2 Hno)
    as (Hret & Hwire & Hdisk & _ & Hsc).
  auto.
Qed.

(** The same event up to the point where [save_log] is called. *)
Lemma process_message_to_save (event : Event) (u : User) (w : world)
    (peer : Z) :
  out event = false ->
  get_chat event = Return (IsUser u) ->
  bot u = false ->
  (ResponseManager.should_reply (str (sender_id event)) w).1 = Return true ->
  get_input_chat event = Return peer ->
  answer_SetTypingRequest (client event) = Return tt ->
  answer_reply event = Return tt ->
  let sender := str (sender_id event) in
  let r := process_message event w in
  exists w5 text,
    r.1 = Return tt /\
    wire r.2 = wire w5 /\ last (wire w5) = Some (Reply text) /\
    disk r.2 = disk (ResponseManager.save_log sender w5).2 /\
    disk w5 !! RESPONSES_FILE = disk w !! RESPONSES_FILE /\
    read_faults w5 = read_faults (ResponseManager.should_reply sender w).2 /\
    write_faults w5 = write_faults w.
Proof.
  intros Hout Hchat Hbot Hshould Hpeer Htyping Hreply sender r.
  subst r. subst sender.
  remember (process_message event w) as r eqn:Hrun.
  set (sender := str (sender_id event)) in *.
  pose proof (should_reply_keeps_write_faults sender w) as Hwf0.
  pose proof (should_reply_keeps_log_file sender w) as Hfile0.
  rewrite (process_message_at_throttle event u w Hout Hchat Hbot) in Hrun.
  fold sender in Hrun. unfold bind at 1 in Hrun.
  destruct (ResponseManager.should_reply sender w) as [res w0].
  cbn in Hshould, Hwf0, Hfile0 |- *. subst res. cbn in Hrun.
  match type of Hrun with
  | context [try_except _ _ ?wa] => remember wa as wa0 eqn:Hwa0
  end.
  assert (Hwa : disk wa0 = disk w0 /\ read_faults wa0 = read_faults w0 /\
                write_faults wa0 = write_faults w)
    by (subst wa0; destruct w0; cbn in *; auto).
  destruct Hwa as (Hda & Hra & Hwfa). clear Hwa0.
  destruct (check_summary (client event) wa0)
    as (b & w1 & probe & Hcheck & _ & _ & _ & _ & _ & Hd1 & Hr1 & Hwf1).
  destruct (body_until_sent event sender wa0 w1 b peer Hpeer Hcheck Htyping
              Hreply)
    as (w5 & Hbody & Hw5 & _ & _ & Hd5 & Hr5 & Hwf5).
  unfold try_except in Hrun. rewrite Hbody in Hrun.
  destruct (try_end_run sender
              ("✅ [ОТВЕТ] Клиенту " +:+ sender +:+ " отправлен.") w5)
    as (Hret & Hwr & _ & _ & Hdr).
  rewrite <- Hrun in Hret, Hwr, Hdr. clear Hrun.
  exists w5, (response_text b).
  split; [exact Hret|]. split; [exact Hwr|]. split.
  { rewrite Hw5.
    change [SetTypingRequest peer; Sleep TYPING_DELAY_SEC;
            Reply (response_text b)]
      with ([SetTypingRequest peer; Sleep TYPING_DELAY_SEC]
              ++ [Reply (response_text b)]).
    rewrite app_assoc. apply last_snoc. }
  split; [exact Hdr|]. split; [rewrite Hd5, Hd1, Hda; exact Hfile0|].
  split; [rewrite Hr5, Hr1, Hra; reflexivity|].
  rewrite Hwf5, Hwf1, Hwfa. reflexivity.
Qed.

Lemma load_log_returns_persisted (w w0 : world) log :
  ResponseManager.load_log w = (Return log, w0) -> log = persisted_log w.
Proof.
  unfold persisted_log.
  destruct (disk w !! RESPONSES_FILE) as [c|] eqn:Hd.
  - destruct (next_fault (read_faults w)).1 eqn:Hf.
    + rewrite (load_log_unreadable w c Hd Hf). discriminate.
    + destruct c as [log0|raw|].
      * rewrite (load_log_json w log0 Hd Hf). congruence.
      * rewrite (load_log_garbled w raw Hd Hf). congruence.
      * rewrite (load_log_undecodable w Hd Hf). discriminate.
  - rewrite (load_log_absent w Hd). congruence.
Qed.

(** X24. A reply that could not be recorded is repeated: when the reply is
    sent and the write of the log then fails, [process_message] still
    returns. If the file could not be opened it holds what it held; if the
    write broke off after the file was opened and truncated, it holds the
    text that was written until then, which is not JSON. Either way the
    sender is accepted again by [should_reply] at every later clock at
    which the file can be read, so the next message is answered too. *)
Theorem unrecorded_reply_is_repeated (event : Event) (u : User)
    (w w2 : world) (peer : Z) (part : string) :
  out event = false ->
  get_chat event = Return (IsUser u) ->
  bot u = false ->
  (ResponseManager.should_reply (str (sender_id event)) w).1 = Return true ->
  get_input_chat event = Return peer ->
  answer_SetTypingRequest (client event) = Return tt ->
  answer_reply event = Return tt ->
  disk w !! RESPONSES_FILE = None \/
  (next_fault
     (read_faults
        (ResponseManager.should_reply (str (sender_id event)) w).2)).1
    = false ->
  (next_fault (write_faults w)).1 = Refused \/
  (next_fault (write_faults w)).1 = Broken (Garbled part) ->
  let r := process_message event w in
  r.1 = Return tt /\
  (exists text, last (wire r.2) = Some (Reply text)) /\
  disk r.2 !! RESPONSES_FILE =
    match (next_fault (write_faults w)).1 with
    | Broken remains => Some remains
    | _ => disk w !! RESPONSES_FILE
    end /\
  (disk w2 !! RESPONSES_FILE = disk r.2 !! RESPONSES_FILE ->
   (next_fault (read_faults w2)).1 = false ->
   clock w <= clock w2 ->
   (ResponseManager.should_reply (str (sender_id event)) w2).1 = Return true).
Proof.
  intros Hout Hchat Hbot Hshould Hpeer Htyping Hreply Hreadable Hwrite r.
  pose proof (should_reply_returns_readable _ w true Hshould) as Hread.
  destruct (process_message_to_save event u w peer Hout Hchat Hbot Hshould
              Hpeer Htyping Hreply)
    as (w5 & text & Hret & Hwire & Hlast & Hdisk & Hfile5 & Hr5 & Hwf5).
  fold r in Hret, Hwire, Hdisk.
  assert (Hfile : disk r.2 !! RESPONSES_FILE =
                  match (next_fault (write_faults w)).1 with
                  | Broken remains => Some remains
                  | _ => disk w !! RESPONSES_FILE
                  end).
  { rewrite Hdisk.
    destruct (load_log_when_readable w5) as (w5' & Hl & _).
    { rewrite Hfile5. exact Hread. }
    { rewrite Hfile5, Hr5. exact Hreadable. }
    pose proof (load_log_keeps_write_faults w5) as Hwf.
    pose proof (load_log_keeps_log_file w5) as Hkeep.
    rewrite Hl in Hwf, Hkeep. cbn in Hwf, Hkeep.
    rewrite (save_log_after_load _ w5 w5' _ Hl), Hwf, Hwf5.
    destruct Hwrite as [Hw|Hw]; rewrite Hw; destruct w5'; cbn in *.
    - rewrite Hkeep. exact Hfile5.
    - apply lookup_insert_eq. }
  split; [exact Hret|]. split; [exists text; rewrite Hwire; exact Hlast|].
  split; [exact Hfile|].
  intros Hd2 Hr2 Hle. rewrite Hfile in Hd2.
  destruct (load_log_when_readable w2) as (w2' & Hl2 & _).
  { rewrite Hd2. destruct Hwrite as [Hw|Hw]; rewrite Hw;
      [exact Hread | discriminate]. }
  { right. exact Hr2. }
  rewrite (should_reply_run _ w2 w2' _ Hl2).
  unfold persisted_log. rewrite Hd2.
  destruct Hwrite as [Hw|Hw]; rewrite Hw; cbn.
  - rewrite should_reply_value in Hshould.
    destruct (ResponseManager.load_log w) as [[log|e] w0] eqn:Hl;
      cbn in Hshould; [|discriminate].
    rewrite (load_log_returns_persisted _ _ _ Hl) in Hshould.
    unfold persisted_log in Hshould.
    match goal with
    | |- context [?m !! str (sender_id event)] =>
        destruct (m !! str (sender_id event)) as [v|]; [|reflexivity]
    end.
    cbn. destruct (conversion v) as [stamp|e]; [|discriminate].
    injection Hshould as Ha. f_equal.
    rewrite Z.geb_leb in *. apply Z.leb_le in Ha. apply Z.leb_le. lia.
  - rewrite lookup_empty. reflexivity.
Qed.

(** X19. What can leave [process_message]: an exception raised by
    [event.get_chat()], or one raised by the throttle check [should_reply].
    Nothing raised after the throttle check is propagated: no error of the
    transport, no flood wait, no error of [save_log]. *)
Theorem escaping_exceptions (event : Event) (w : world) (e : exn) :
  (process_message event w).1 = Raise e ->
  get_chat event = Raise e \/
  (ResponseManager.should_reply (str (sender_id event)) w).1 = Raise e.
Proof.
  unfold process_message.
  destruct (out event) eqn:Hout; [discriminate|].
  unfold lift, bind at 1.
  destruct (get_chat event) as [[u| |]|e0] eqn:Hchat;
    [ | discriminate | discriminate | intros [= ->]; auto ].
  destruct (bot u) eqn:Hbot; [discriminate|].
  intros Hraise. right.
  destruct (ResponseManager.should_reply (str (sender_id event)) w).1
    as [[|]|e1] eqn:Hshould.
  - pose proof (nothing_propagates_past_throttle event u w Hout Hchat Hbot
                  Hshould) as Hret.
    unfold process_message in Hret.
    rewrite Hout, Hchat in Hret. unfold lift, bind at 1 in Hret.
    rewrite Hbot in Hret. congruence.
  - unfold bind at 1 in Hraise.
    destruct (ResponseManager.should_reply (str (sender_id event)) w)
      as [res w0]. cbn in Hshould. subst res. discriminate.
  - unfold bind at 1 in Hraise.
    destruct (ResponseManager.should_reply (str (sender_id event)) w)
      as [res w0]. cbn in Hshould. subst res. cbn in Hraise. congruence.
Qed.

(** X20. What [save_log] writes, [load_log] reads back: after a save that
    wrote, the next load that can read the file returns the log persisted
    before the save with the entry of [c] set to the instant of the save. *)
Theorem saved_log_loads_back (c : string) (w w1 w2 : world) :
  ResponseManager.save_log c w = (Return tt, w1) ->
  (next_fault (write_faults w)).1 = false ->
  disk w2 !! RESPONSES_FILE = disk w1 !! RESPONSES_FILE ->
  (next_fault (read_faults w2)).1 = false ->
  (ResponseManager.load_log w2).1 =
    Return (<[c := VStr (isoformat (utc_datetime (clock w)))]>
              (persisted_log w)).
Proof.
  intros Hs Hw Hd Hr.
  pose proof (save_log_persists c w w1 Hs Hw) as Hp. rewrite <- Hd in Hp.
  rewrite (load_log_json w2 _ Hp Hr). reflexivity.
Qed.

(** X21. Saving twice for one correspondent keeps one entry, the later
    one: the second save replaces the stamp of [c] and the log is otherwise
    what it was before the first. *)
Theorem save_log_twice (c : string) (w w1 w2 w3 : world) :
  ResponseManager.save_log c w = (Return tt, w1) ->
  (next_fault (write_faults w)).1 = false ->
  disk w2 !! RESPONSES_FILE = disk w1 !! RESPONSES_FILE ->
  ResponseManager.save_log c w2 = (Return tt, w3) ->
  (next_fault (write_faults w2)).1 = false ->
  persisted_log w3 =
    <[c := VStr (isoformat (utc_datetime (clock w2)))]> (persisted_log w) /\
  size (persisted_log w3) = size (persisted_log w1).
Proof.
  intros Hs1 Hw1 Hd Hs2 Hw2.
  pose proof (save_log_persists c w w1 Hs1 Hw1) as Hp1.
  pose proof (save_log_persists c w2 w3 Hs2 Hw2) as Hp3.
  assert (H2 : persisted_log w2 = persisted_log w1)
    by (unfold persisted_log; rewrite Hd; reflexivity).
  assert (H1 : persisted_log w1 =
               <[c := VStr (isoformat (utc_datetime (clock w)))]>
                 (persisted_log w))
    by (unfold persisted_log at 1; rewrite Hp1; reflexivity).
  assert (H3 : persisted_log w3 =
               <[c := VStr (isoformat (utc_datetime (clock w2)))]>
                 (persisted_log w2))
    by (unfold persisted_log at 1; rewrite Hp3; reflexivity).
  rewrite H3, H2. split.
  - rewrite H1. apply insert_insert_eq.
  - apply map_size_insert_Some. rewrite H1, lookup_insert_eq. eauto.
Qed.

(** X22. A cache whose [ttl] is zero or negative never answers: while the
    clock is not behind the stamp of the entry, every [get] is a miss. *)
Theorem cache_without_ttl_never_hits (w : world) :
  ttl (status_cache w) <= 0 ->
  cache_timestamp (status_cache w) <= clock w ->
  (AdminStatusCache.get w).1 = Return None.
Proof.
  intros Httl Hstamp. run.
  assert (Hge : (clock w - cache_timestamp (status_cache w)
                 <? seconds (ttl (status_cache w))) = false)
    by (apply Z.ltb_ge; unfold seconds; lia).
  rewrite Hge. reflexivity.
Qed.

(** X23. The classification has no effect but one record of the logger at
    level INFO: clock, cache, files and wire are as they were. *)
Theorem classify_only_logs (s : UserStatus) (w : world) :
  exists msg,
    (classify s w).2 = set_journal (journal w ++ [(INFO, msg)]) w.
Proof.
  destruct (classify_run s w) as [msg ->]. eauto.
Qed.

End More.

(** ** These properties on the sample inputs *)

Ltac evaluate :=
  first [ vm_compute; reflexivity
        | vm_compute; discriminate
        | vm_compute; lia ].

(** A corrupt log and an unrelated file, after a load that made the
    backup. *)
Lemma load_log_leaves_log_file_witness :
  let w :=
    sample_world sample_instant
      {[ "responses_log.json" := Garbled "{oops";
         "config.json" := Garbled "settings" ]} in
  let r := @ResponseManager.load_log sample_config w in
  disk r.2 !! "responses_log.json" = Some (Garbled "{oops") /\
  disk r.2 !! "config.json" = Some (Garbled "settings").
Proof.
  intros w r.
  destruct (@load_log_leaves_log_file sample_config w) as [Hlog Hother].
  split.
  - transitivity (disk w !! "responses_log.json"); [exact Hlog | evaluate].
  - transitivity (disk w !! "config.json");
      [apply (Hother "config.json"); evaluate | evaluate].
Defined.

Lemma save_log_heals_corrupt_log_witness :
  let w :=
    sample_world sample_instant {[ "responses_log.json" := Garbled "{oops" ]} in
  let r := @ResponseManager.save_log sample_config Iso8601.codec "42" w in
  r.1 = Return tt /\
  disk r.2 !! "responses_log.json" =
    Some (Json {[ "42" := VStr "2023-11-14T22:13:20+00:00" ]}).
Proof.
  intros w r.
  destruct (@save_log_heals_corrupt_log sample_config Iso8601.codec "42" w
              "{oops" ltac:(evaluate) ltac:(evaluate) ltac:(evaluate))
    as [Hret Hfile].
  split; [exact Hret|].
  etransitivity; [exact Hfile | evaluate].
Defined.

(** The log holds the entry of user 7 and cannot be written. *)
Lemma save_log_write_failure_is_silent_witness :
  let w :=
    World sample_instant (AdminStatusCache.__init__ STATUS_CACHE_TTL_SEC)
          {[ "responses_log.json" := Json {[ "7" := VNum sample_instant ]} ]}
          [] [] [Refused] [] [] in
  let r := @ResponseManager.save_log sample_config Iso8601.codec "42" w in
  r.1 = Return tt /\
  @persisted_log sample_config r.2 = {[ "7" := VNum sample_instant ]} /\
  journal r.2 = [(ERROR, "Failed to save log file: Permission denied")].
Proof.
  intros w r.
  destruct (@save_log_write_failure_is_silent sample_config Iso8601.codec
              "42" w (@ResponseManager.load_log sample_config w).2
              (@persisted_log sample_config w)
              ltac:(evaluate) ltac:(evaluate))
    as (Hret & _ & Hlog & Hjournal).
  split; [exact Hret|]. split.
  - etransitivity; [exact Hlog | evaluate].
  - etransitivity; [exact Hjournal | evaluate].
Defined.

(** The log exists and cannot be opened. *)
Lemma save_log_stops_on_load_failure_witness :
  let w :=
    World sample_instant (AdminStatusCache.__init__ STATUS_CACHE_TTL_SEC)
          {[ "responses_log.json" := Json {[ "7" := VNum sample_instant ]} ]}
          [true] [] [] [] [] in
  (@ResponseManager.save_log sample_config Iso8601.codec "42" w).1
    = Raise (RuntimeError "Cannot safely proceed without log file access.") /\
  disk (@ResponseManager.save_log sample_config Iso8601.codec "42" w).2
    = disk w.
Proof.
  intros w.
  destruct (@save_log_stops_on_load_failure sample_config Iso8601.codec
              "42" w (@ResponseManager.load_log sample_config w).2
              (RuntimeError "Cannot safely proceed without log file access.")
              ltac:(evaluate))
    as (Hrun & Hdisk & _).
  rewrite Hrun. split; [reflexivity | exact Hdisk].
Defined.

(** The entry of 42 is ten minutes old; an hour later 42 is still
    eligible. *)
Lemma should_reply_stays_true_witness :
  let files : gmap string content :=
    {[ "responses_log.json" :=
         Json {[ "42" := VStr "2023-11-14T22:13:20+00:00" ]} ]} in
  (@ResponseManager.should_reply sample_config Iso8601.codec "42"
     (sample_world (sample_instant + seconds 4200) files)).1 = Return true.
Proof.
  intros files.
  apply (@should_reply_stays_true sample_config Iso8601.codec "42"
           (sample_world (sample_instant + seconds 600) files)
           (sample_world (sample_instant + seconds 4200) files));
    evaluate.
Defined.

Lemma fresh_cache_get_witness :
  (AdminStatusCache.get (sample_world sample_instant ∅)).1 = Return None /\
  (AdminStatusCache.get (sample_world (seconds 10) ∅)).1
    = Return (Some false).
Proof.
  split.
  - rewrite (fresh_cache_get STATUS_CACHE_TTL_SEC) by reflexivity. evaluate.
  - rewrite (fresh_cache_get STATUS_CACHE_TTL_SEC) by reflexivity. evaluate.
Defined.

(** The owner was last seen two hours ago; the threshold is ten minutes. *)
Lemma check_live_probe_witness :
  let seen := Datetime (sample_instant - seconds 7200) (Some 0) in
  let cl :=
    sample_client (Return [MkUser false (UserStatusOffline (Some seen))])
                  (Return tt) in
  let r := @check_admin_online_status sample_config cl
             (sample_world sample_instant ∅) in
  r.1 = Return false /\
  status_cache r.2 = MkStatusCache 30 false (sample_instant + 250000) /\
  wire r.2 = [GetUsersRequest [1001]].
Proof.
  intros seen cl r.
  destruct (@check_live_probe sample_config cl (sample_world sample_instant ∅)
              (MkUser false (UserStatusOffline (Some seen))) []
              ltac:(evaluate) ltac:(evaluate))
    as (Hret & Hcache & _ & Hwire & _).
  split; [etransitivity; [exact Hret | evaluate]|].
  split; [etransitivity; [exact Hcache | evaluate]|].
  etransitivity; [exact Hwire | evaluate].
Defined.

Lemma check_empty_user_list_witness :
  let cl := sample_client (Return []) (Return tt) in
  let r := @check_admin_online_status sample_config cl
             (sample_world sample_instant ∅) in
  r.1 = Return false /\ cache_is_online (status_cache r.2) = false.
Proof.
  intros cl r.
  destruct (@check_empty_user_list sample_config cl
              (sample_world sample_instant ∅)
              ltac:(evaluate) ltac:(evaluate))
    as (Hret & Hcache & _).
  split; [exact Hret | exact Hcache].
Defined.

(** The owner is online at the first check; 29 seconds later the probe
    would fail, and is not made. *)
Lemma check_answer_is_reused_witness :
  let online :=
    sample_client (Return [MkUser false UserStatusOnline]) (Return tt) in
  let failing :=
    sample_client (Raise (RPCError "Connection reset by peer")) (Return tt) in
  let w1 := (@check_admin_online_status sample_config online
               (sample_world sample_instant ∅)).2 in
  let r2 := @check_admin_online_status sample_config failing
              (set_clock (clock w1 + seconds 29) w1) in
  r2.1 = Return true /\ wire r2.2 = wire w1.
Proof.
  intros online failing w1 r2.
  destruct (@check_answer_is_reused sample_config online failing
              (sample_world sample_instant ∅)
              (set_clock (clock w1 + seconds 29) w1)
              ltac:(evaluate) ltac:(evaluate) ltac:(evaluate))
    as (Hret & Hwire & _).
  split; [etransitivity; [exact Hret | evaluate] | exact Hwire].
Defined.

Lemma filtered_events_leave_no_trace_witness :
  let event :=
    MkEvent true (Return (IsUser (MkUser false UserStatusRecently))) 42
            (sample_client (Return []) (Return tt)) (Return 42) (Return tt) in
  @process_message sample_config Iso8601.codec event
    (sample_world sample_instant ∅)
  = (Return tt, sample_world sample_instant ∅).
Proof.
  intros event.
  apply (@filtered_events_leave_no_trace sample_config Iso8601.codec event).
  left. reflexivity.
Defined.

Lemma load_failure_stops_event_witness :
  let event :=
    sample_event
      (sample_client (Return [MkUser false UserStatusOnline]) (Return tt))
      (Return tt) in
  let w :=
    World sample_instant (AdminStatusCache.__init__ STATUS_CACHE_TTL_SEC)
          {[ "responses_log.json" := Json ∅ ]} [true] [] [] [] [] in
  let r := @process_message sample_config Iso8601.codec event w in
  r.1 = Raise (RuntimeError "Cannot safely proceed without log file access.")
  /\ wire r.2 = [].
Proof.
  intros event w r.
  destruct (@load_failure_stops_event sample_config Iso8601.codec event
              (MkUser false UserStatusRecently) w
              (@ResponseManager.load_log sample_config w).2
              (RuntimeError "Cannot safely proceed without log file access.")
              ltac:(evaluate) ltac:(evaluate) ltac:(evaluate)
              ltac:(evaluate))
    as (Hrun & Hwire & _).
  subst r. rewrite Hrun. split; [reflexivity | exact Hwire].
Defined.

(** User 42 was answered five seconds ago. *)
Lemma throttled_event_has_no_effect_witness :
  let event :=
    sample_event
      (sample_client (Return [MkUser false UserStatusOnline]) (Return tt))
      (Return tt) in
  let w :=
    sample_world (sample_instant + seconds 5)
      {[ "responses_log.json" :=
           Json {[ "42" := VStr "2023-11-14T22:13:20+00:00" ]} ]} in
  let r := @process_message sample_config Iso8601.codec event w in
  r.1 = Return tt /\ wire r.2 = [] /\ disk r.2 = disk w.
Proof.
  intros event w r.
  destruct (@throttled_event_has_no_effect sample_config Iso8601.codec event
              (MkUser false UserStatusRecently) w
              ltac:(evaluate) ltac:(evaluate) ltac:(evaluate)
              ltac:(evaluate))
    as (Hret & Hwire & Hdisk & _).
  split; [exact Hret|]. split; [exact Hwire | exact Hdisk].
Defined.

(** User 42 has no entry, the owner is online, nothing fails: the online
    reply goes out and 42 is recorded two seconds and a quarter after the
    message, when the send is done. *)
Lemma reply_sent_and_recorded_witness :
  let event :=
    sample_event
      (sample_client (Return [MkUser false UserStatusOnline]) (Return tt))
      (Return tt) in
  let r := @process_message sample_config Iso8601.codec event
             (sample_world sample_instant ∅) in
  r.1 = Return tt /\
  wire r.2 =
    [GetUsersRequest [1001]; SetTypingRequest 42; Sleep 2;
     Reply "Hello! I am around. Leave a message."] /\
  disk r.2 !! "responses_log.json" =
    Some (Json {[ "42" := VStr "2023-11-14T22:13:22.250000+00:00" ]}).
Proof.
  intros event r.
  destruct (@reply_sent_and_recorded sample_config Iso8601.codec event
              (MkUser false UserStatusRecently)
              (sample_world sample_instant ∅) 42
              ltac:(evaluate) ltac:(evaluate) ltac:(evaluate)
              ltac:(evaluate) ltac:(evaluate) ltac:(evaluate)
              ltac:(evaluate))
    as (probe & Hret & Hwire & _ & Hmiss & Hsaved).
  destruct (Hmiss ltac:(evaluate)) as [-> _].
  split; [exact Hret|]. split.
  - etransitivity; [exact Hwire | evaluate].
  - etransitivity;
      [exact (Hsaved ltac:(left; evaluate) ltac:(evaluate)) | evaluate].
Defined.

Lemma one_reply_and_no_entry_without_it_witness :
  let event :=
    sample_event
      (sample_client (Return [MkUser false UserStatusOnline]) (Return tt))
      (Return tt) in
  let w := sample_world sample_instant ∅ in
  let r := @process_message sample_config Iso8601.codec event w in
  exists acts,
    wire r.2 = wire w ++ acts /\
    (length (List.filter is_reply acts) <= 1)%nat /\
    exists text, In (Reply text) acts.
Proof.
  intros event w r.
  destruct (@one_reply_and_no_entry_without_it sample_config Iso8601.codec
              event w) as (acts & Hwire & Hone & Hcause).
  exists acts. split; [exact Hwire|]. split; [exact Hone|].
  apply Hcause. evaluate.
Defined.

(** User 42 writes again five seconds after the first reply was
    recorded. *)
Lemma second_message_is_throttled_witness :
  let event :=
    sample_event
      (sample_client (Return [MkUser false UserStatusOnline]) (Return tt))
      (Return tt) in
  let r := @process_message sample_config Iso8601.codec event
             (sample_world sample_instant ∅) in
  let w2 := set_clock (clock r.2 + seconds 5) r.2 in
  let r2 := @process_message sample_config Iso8601.codec event w2 in
  r2.1 = Return tt /\ wire r2.2 = wire w2 /\ disk r2.2 = disk w2.
Proof.
  intros event r w2 r2.
  destruct (@second_message_is_throttled sample_config Iso8601.codec
              event event
              (MkUser false UserStatusRecently)
              (MkUser false UserStatusRecently)
              (sample_world sample_instant ∅) w2 42
              ltac:(evaluate) ltac:(evaluate) ltac:(evaluate)
              ltac:(evaluate) ltac:(evaluate) ltac:(evaluate)
              ltac:(evaluate) ltac:(left; evaluate) ltac:(evaluate)
              ltac:(evaluate) ltac:(evaluate) ltac:(evaluate)
              ltac:(evaluate) ltac:(evaluate) ltac:(evaluate)
              ltac:(evaluate) ltac:(evaluate))
    as (Hret & Hwire & Hdisk & _).
  split; [exact Hret|]. split; [exact Hwire | exact Hdisk].
Defined.

(** The log holds for user 42 an integer beyond the range of the floats:
    the [OverflowError] of the conversion leaves through the throttle
    check. *)
Lemma escaping_exceptions_witness :
  let event :=
    sample_event
      (sample_client (Return [MkUser false UserStatusOnline]) (Return tt))
      (Return tt) in
  let w :=
    sample_world sample_instant
      {[ "responses_log.json" :=
           Json {[ "42" := VNum (seconds (10 ^ 400)) ]} ]} in
  (@ResponseManager.should_reply sample_config Iso8601.codec "42" w).1
    = Raise (OverflowError "int too large to convert to float").
Proof.
  intros event w.
  destruct (@escaping_exceptions sample_config Iso8601.codec event w
              (OverflowError "int too large to convert to float")
              ltac:(evaluate)) as [Hchat|Hthrottle].
  - vm_compute in Hchat. discriminate Hchat.
  - exact Hthrottle.
Defined.

Lemma saved_log_loads_back_witness :
  let w :=
    sample_world sample_instant
      {[ "responses_log.json" := Json {[ "7" := VNum sample_instant ]} ]} in
  let w1 := (@ResponseManager.save_log sample_config Iso8601.codec "42" w).2 in
  (@ResponseManager.load_log sample_config w1).1 =
    Return {[ "7" := VNum sample_instant;
              "42" := VStr "2023-11-14T22:13:20+00:00" ]}.
Proof.
  intros w w1.
  etransitivity;
    [ apply (@saved_log_loads_back sample_config Iso8601.codec "42" w w1 w1);
      evaluate
    | evaluate ].
Defined.

(** User 42 is recorded, and recorded again eleven minutes later. *)
Lemma save_log_twice_witness :
  let w :=
    sample_world sample_instant
      {[ "responses_log.json" := Json {[ "7" := VNum sample_instant ]} ]} in
  let w1 := (@ResponseManager.save_log sample_config Iso8601.codec "42" w).2 in
  let w2 := set_clock (sample_instant + seconds 660) w1 in
  let w3 := (@ResponseManager.save_log sample_config Iso8601.codec "42" w2).2 in
  @persisted_log sample_config w3 =
    {[ "7" := VNum sample_instant;
       "42" := VStr "2023-11-14T22:24:20+00:00" ]} /\
  size (@persisted_log sample_config w3) = 2%nat.
Proof.
  intros w w1 w2 w3.
  destruct (@save_log_twice sample_config Iso8601.codec "42" w w1 w2 w3
              ltac:(evaluate) ltac:(evaluate) ltac:(evaluate)
              ltac:(evaluate) ltac:(evaluate)) as [Hlog Hsize].
  split.
  - etransitivity; [exact Hlog | evaluate].
  - etransitivity; [exact Hsize | evaluate].
Defined.

Lemma cache_without_ttl_never_hits_witness :
  let w :=
    set_clock sample_instant
      (AdminStatusCache.set true
         (World sample_instant (AdminStatusCache.__init__ 0) ∅ [] [] [] [] [])).2
  in
  (AdminStatusCache.get w).1 = Return None.
Proof.
  intros w. apply (cache_without_ttl_never_hits w); evaluate.
Defined.

(** The reply to user 42 goes out and the write of the log breaks off
    after the first character: the file is left with that character, and a
    second later user 42 is accepted again. *)
Lemma unrecorded_reply_is_repeated_witness :
  let event :=
    sample_event
      (sample_client (Return [MkUser false UserStatusOnline]) (Return tt))
      (Return tt) in
  let w :=
    World sample_instant (AdminStatusCache.__init__ STATUS_CACHE_TTL_SEC)
          {[ "responses_log.json" := Json {[ "7" := VNum sample_instant ]} ]}
          [] [] [Broken (Garbled "{")] [] [] in
  let r := @process_message sample_config Iso8601.codec event w in
  r.1 = Return tt /\
  last (wire r.2) = Some (Reply "Hello! I am around. Leave a message.") /\
  disk r.2 !! "responses_log.json" = Some (Garbled "{") /\
  (@ResponseManager.should_reply sample_config Iso8601.codec "42"
     (set_clock (clock r.2 + seconds 1) r.2)).1 = Return true.
Proof.
  intros event w r.
  destruct (@unrecorded_reply_is_repeated sample_config Iso8601.codec event
              (MkUser false UserStatusRecently) w
              (set_clock (clock r.2 + seconds 1) r.2) 42 "{"
              ltac:(evaluate) ltac:(evaluate) ltac:(evaluate)
              ltac:(evaluate) ltac:(evaluate) ltac:(evaluate)
              ltac:(evaluate) ltac:(right; evaluate) ltac:(right; evaluate))
    as (Hret & _ & Hfile & Hagain).
  split; [exact Hret|]. split; [evaluate|]. split; [exact Hfile|].
  apply Hagain; evaluate.
Defined.
